(** * Akumuli query-processing pipeline: a shallow embedding of
      [src/src/akumuli.cpp] (the [Akumuli::QP] namespace) and the properties
      of its stream operators.

    Conventions of the embedding.
    - [uint64_t] / [size_t] / [uint32_t] values are [Z] with the wrap-around
      written out ([u64], [u32]).
    - [double] is Rocq's primitive binary64 [float]; conversions between
      [double] and [size_t] are written out in [Module Double].
    - [std::unordered_map] is stdpp's [gmap]; a range-for over the map walks
      [map_to_list].  The C++ iteration order is implementation-defined, so
      statements about several entries are made up to permutation.
    - A node owns the state of its successor ([next_]); every operation
      returns the new state.  Undefined behaviour and panics are [None]. *)

From Stdlib Require Import ZArith List Bool String Floats Uint63 Lia.
From Stdlib Require Import Sorting.Sorted Sorting.Permutation.
From stdpp Require Import base option list gmap strings.

Local Open Scope Z_scope.

(** ** Machine integers *)

Definition u64 (z : Z) : Z := z mod 2 ^ 64.
Definition u32 (z : Z) : Z := z mod 2 ^ 32.
Definition SIZE_MAX : Z := 2 ^ 64 - 1.

(** ** [double] and its conversions *)

Module Double.

(** Magnitude of [m * 2^e] truncated toward zero. *)
Definition trunc_magnitude (m : positive) (e : Z) : Z :=
  if 0 <=? e then Z.pos m * 2 ^ e else Z.pos m / 2 ^ (- e).

(** [static_cast<size_t>(x)]: defined only when the truncated value is
    representable in [size_t]; anything else is undefined behaviour. *)
Definition to_size_t (x : float) : option Z :=
  match Prim2SF x with
  | S754_zero _ => Some 0
  | S754_finite s m e =>
      let v := trunc_magnitude m e in
      if s then (if v =? 0 then Some 0 else None)
      else if v <=? SIZE_MAX then Some v else None
  | S754_infinity _ | S754_nan => None
  end.

(** [static_cast<double>(n)] for [0 <= n < 2^64], rounded to nearest: the
    high half scaled by [2^32] is exact, the final sum rounds once. *)
Definition of_size_t (n : Z) : float :=
  (PrimFloat.of_uint63 (Uint63.of_Z (n / 2 ^ 32)) * 4294967296
   + PrimFloat.of_uint63 (Uint63.of_Z (n mod 2 ^ 32)))%float.

(** [ceil(x)] as an integer; [None] for infinities and NaN. *)
Definition ceil (x : float) : option Z :=
  match Prim2SF x with
  | S754_zero _ => Some 0
  | S754_finite s m e =>
      if 0 <=? e then Some ((if s then -1 else 1) * (Z.pos m * 2 ^ e))
      else
        let q := Z.pos m / 2 ^ (- e) in
        let r := Z.pos m mod 2 ^ (- e) in
        if s then Some (- q) else Some (if r =? 0 then q else q + 1)
  | S754_infinity _ | S754_nan => None
  end.

(** [size_t(ceil(x))], the conversion in [SpaceSaver]'s initialiser list. *)
Definition ceil_to_size_t (x : float) : option Z :=
  c ← ceil x; if (0 <=? c) && (c <=? SIZE_MAX) then Some c else None.

(** The [double] whose IEEE-754 binary64 encoding is the 64-bit word [b]:
    what reading [value.float64] yields when the union holds a blob, whose
    first word is the [begin] pointer. *)
Definition of_bits (b : Z) : float :=
  let sign := Z.testbit b 63 in
  let e := Z.land (Z.shiftr b 52) 2047 in
  let m := Z.land b (2 ^ 52 - 1) in
  if (e =? 2047)%Z then
    (if (m =? 0)%Z then (if sign then neg_infinity else infinity) else nan)
  else if (e =? 0)%Z then
    match m with
    | Z.pos p => SF2Prim (S754_finite sign p (-1074)%Z)
    | _ => if sign then (-0)%float else 0%float
    end
  else
    match (m + 2 ^ 52)%Z with
    | Z.pos p => SF2Prim (S754_finite sign p (e - 1075)%Z)
    | _ => nan
    end.

End Double.

(** ** Samples

    Modelled from the spec: the payload flags of [aku_PData] and the status
    codes are declared in [akumuli.h], which is not among the sources.
    [EMPTY] is the zero value (the zero-initialised [EMPTY_SAMPLE] is the
    empty sentinel); the other flags are distinct bits. *)

Module aku_PData.
Definition EMPTY : Z := 0.
Definition PARAMID_BIT : Z := 1.
Definition TIMESTAMP_BIT : Z := 2.
Definition BLOB_BIT : Z := 8.
Definition FLOAT_BIT : Z := 16.
Definition URGENT : Z := 256.

(** The [value] union of the payload. *)
Inductive Value :=
| Float64 (f : float)
| Blob (begin : Z) (size : Z).

Record t := mk { type : Z; value : Value }.

(** Reading the [float64] member, whichever member was written. *)
Definition float64 (v : Value) : float :=
  match v with
  | Float64 f => f
  | Blob b _ => Double.of_bits (u64 b)
  end.
End aku_PData.

Definition AKU_PAYLOAD_FLOAT : Z :=
  Z.lor (Z.lor aku_PData.PARAMID_BIT aku_PData.TIMESTAMP_BIT) aku_PData.FLOAT_BIT.

Definition aku_ParamId := Z.
Definition aku_Timestamp := Z.
Definition AKU_MIN_TIMESTAMP : aku_Timestamp := 0.
Definition AKU_MAX_TIMESTAMP : aku_Timestamp := 2 ^ 64 - 1.

Inductive aku_Status :=
| AKU_SUCCESS
| AKU_EANOMALY_NEG_VAL
| AKU_ESTATUS (code : Z).

Record aku_Sample := mk_Sample {
  paramid : aku_ParamId;
  timestamp : aku_Timestamp;
  payload : aku_PData.t
}.

(** [static aku_Sample EMPTY_SAMPLE = {};] *)
Definition EMPTY_SAMPLE : aku_Sample :=
  {| paramid := 0; timestamp := 0;
     payload := {| aku_PData.type := 0; aku_PData.value := aku_PData.Float64 0 |} |}.

Definition payload_type (s : aku_Sample) : Z := aku_PData.type (payload s).
Definition payload_float64 (s : aku_Sample) : float :=
  aku_PData.float64 (aku_PData.value (payload s)).

Definition with_timestamp (ts : aku_Timestamp) (s : aku_Sample) : aku_Sample :=
  {| paramid := paramid s; timestamp := ts; payload := payload s |}.

Definition with_type (ty : Z) (s : aku_Sample) : aku_Sample :=
  {| paramid := paramid s; timestamp := timestamp s;
     payload := {| aku_PData.type := ty;
                   aku_PData.value := aku_PData.value (payload s) |} |}.

(** A float data sample [(id, ts, v)] as the storage cursor produces it. *)
Definition float_sample (id : aku_ParamId) (ts : aku_Timestamp) (v : float) : aku_Sample :=
  {| paramid := id; timestamp := ts;
     payload := {| aku_PData.type := AKU_PAYLOAD_FLOAT;
                   aku_PData.value := aku_PData.Float64 v |} |}.

(** An empty sentinel carrying the timestamp [ts]. *)
Definition sentinel (ts : aku_Timestamp) : aku_Sample := with_timestamp ts EMPTY_SAMPLE.

(** ** The node interface ([struct Node] of [queryprocessor.h]) *)

Module Node.
Inductive NodeType :=
| RandomSampler | MovingAverage | MovingMedian | SpaceSaver
| AnomalyDetector | Resampler | FilterById | Mock.

Class Node (T : Type) := {
  put : aku_Sample -> T -> option (bool * T);
  complete : T -> option T;
  set_error : aku_Status -> T -> T;
  get_type : T -> NodeType
}.
End Node.
Abbreviation Node := Node.Node.

(** The loop [for (s : l) if (!next_->put(s)) return false;] shared by the
    flushing operators.  The flag tells whether every sample was accepted. *)
Fixpoint put_all {T} `{Node T} (l : list aku_Sample) (next : T) : option (bool * T) :=
  match l with
  | [] => Some (true, next)
  | s :: l' =>
      '(ok, next') ← Node.put s next;
      if ok : bool then put_all l' next' else Some (false, next')
  end.

(** ** The sink

    Modelled from the spec: the terminal node is supplied by the caller and
    is not among the sources.  [Recorder] is the sink of the spec's
    scenarios: it accepts every sample and records what it receives, in
    order of arrival. *)

Inductive Event :=
| OnPut (s : aku_Sample)
| OnComplete
| OnError (status : aku_Status).

Record Recorder := mk_Recorder { events : list Event }.

#[global] Instance Recorder_Node : Node Recorder := {|
  Node.put s r := Some (true, mk_Recorder (events r ++ [OnPut s]));
  Node.complete r := Some (mk_Recorder (events r ++ [OnComplete]));
  Node.set_error st r := mk_Recorder (events r ++ [OnError st]);
  Node.get_type _ := Node.Mock
|}.

(** A sink that accepts [budget] samples and then asks the producer to stop:
    it records the refused sample and returns [false]. *)
Record Limited := mk_Limited { budget : nat; seen : list Event }.

#[global] Instance Limited_Node : Node Limited := {|
  Node.put s r :=
    match budget r with
    | O => Some (false, mk_Limited O (seen r ++ [OnPut s]))
    | S n => Some (true, mk_Limited n (seen r ++ [OnPut s]))
    end;
  Node.complete r := Some (mk_Limited (budget r) (seen r ++ [OnComplete]));
  Node.set_error st r := mk_Limited (budget r) (seen r ++ [OnError st]);
  Node.get_type _ := Node.Mock
|}.

(** ** Library routines used by the nodes *)

(** Modelled from the spec: [Rand] (declared in [util.h], not among the
    sources) is the node's pseudo-random generator, seeded at construction.
    It is an arbitrary sequence of 32-bit outputs with a read position. *)
Record Rand := mk_Rand { outputs : nat -> Z; calls : nat }.

Definition Rand_call (r : Rand) : Z * Rand :=
  (u32 (outputs r (calls r)), mk_Rand (outputs r) (S (calls r))).

Section Sorting.
Context {A : Type} (comp : A -> A -> bool).

(** Insertion of [x], which precedes every element of [l] in the input,
    in front of the first element that does not compare below it. *)
Fixpoint insert_sorted (x : A) (l : list A) : list A :=
  match l with
  | [] => [x]
  | y :: l' => if comp y x then y :: insert_sorted x l' else x :: y :: l'
  end.

(** [std::stable_sort(first, last, comp)]. *)
Definition stable_sort (l : list A) : list A := foldr insert_sorted [] l.

(** [std::sort(first, last, comp)]: the standard leaves the order of
    equivalent elements open; the model keeps it. *)
Definition std_sort (l : list A) : list A := stable_sort l.
End Sorting.

(** [std::partial_sort] on a [vector<double>]: the arrangement of the
    elements from [middle] on is left open by the standard, so the routine
    is a parameter of the model. *)
Class StdPartialSort := std_partial_sort : nat -> list float -> list float.

(** The contents of an automatic [aku_Sample] that was declared without an
    initialiser: the fields that are never assigned keep these values. *)
Class Indeterminate := indeterminate_sample : aku_Sample.

(** [std::vector<aku_Sample>::reserve(n)] obtains storage for [n] samples
    and leaves the contents of the vector as they are, or it throws:
    [std::length_error] when [n] is above [max_size()], [std::bad_alloc]
    when the free store has no room.  Which of the three happens depends on
    the platform and on the state of the free store, so the routine is a
    parameter of the model; [None] is the call that returns. *)
Inductive ReserveFailure := length_error | bad_alloc.

Class FreeStore := vector_reserve : Z -> option ReserveFailure.

(** ** [RandomSamplingNode] *)

Module RandomSamplingNode.
Record t (T : Type) := mk {
  buffer_size_ : Z;
  samples_ : list aku_Sample;
  random_ : Rand;
  next_ : T
}.
Arguments mk {T}.
Arguments buffer_size_ {T}.
Arguments samples_ {T}.
Arguments random_ {T}.
Arguments next_ {T}.

(** The comparison of [flush]: [(timestamp, paramid)] tuples under [<]. *)
Definition predicate (lhs rhs : aku_Sample) : bool :=
  (timestamp lhs <? timestamp rhs)
  || ((timestamp lhs =? timestamp rhs) && (paramid lhs <? paramid rhs)).

Section Ops.
Context {T : Type} `{Node T}.

(** The node the constructor leaves when it returns: [buffer_size_] and
    [next_] from the initialisers, the generator as seeded, and the empty
    [samples_] ([reserve] changes its capacity, not its contents). *)
Definition create (buffer_size : Z) (random : Rand) (next : T) : t T :=
  mk (u32 buffer_size) [] random next.

(** The constructor: its body calls [samples_.reserve(buffer_size)], and
    when that throws no node is built. *)
Definition construct `{FreeStore} (buffer_size : Z) (random : Rand) (next : T)
    : ReserveFailure + t T :=
  match vector_reserve (u32 buffer_size) with
  | Some failure => inl failure
  | None => inr (create buffer_size random next)
  end.

Definition get_type (_ : t T) : Node.NodeType := Node.RandomSampler.

Definition flush (n : t T) : option (bool * t T) :=
  let sorted := stable_sort predicate (samples_ n) in
  '(ok, next') ← put_all sorted (next_ n);
  if ok : bool
  then Some (true, mk (buffer_size_ n) [] (random_ n) next')
  else Some (false, mk (buffer_size_ n) sorted (random_ n) next').

Definition complete (n : t T) : option (t T) :=
  '(_, n') ← flush n;
  next' ← Node.complete (next_ n');
  Some (mk (buffer_size_ n') (samples_ n') (random_ n') next').

Definition put (sample : aku_Sample) (n : t T) : option (bool * t T) :=
  if payload_type sample =? aku_PData.EMPTY then flush n
  else
    let size := Z.of_nat (length (samples_ n)) in
    if size <? buffer_size_ n then
      (* Just append new values *)
      Some (true, mk (buffer_size_ n) (samples_ n ++ [sample]) (random_ n) (next_ n))
    else
      (* Flip a coin *)
      let '(r, random') := Rand_call (random_ n) in
      if size =? 0 then None (* remainder of a division by zero *)
      else
        let ix := u32 (r mod size) in
        if ix <? buffer_size_ n then
          if ix <? size
          then Some (true, mk (buffer_size_ n)
                              (<[Z.to_nat ix := sample]> (samples_ n)) random' (next_ n))
          else None (* [at] throws [std::out_of_range] *)
        else Some (true, mk (buffer_size_ n) (samples_ n) random' (next_ n)).

Definition set_error (status : aku_Status) (n : t T) : t T :=
  mk (buffer_size_ n) (samples_ n) (random_ n) (Node.set_error status (next_ n)).
End Ops.

#[global] Instance node {T} `{Node T} : Node (t T) := {|
  Node.put := put; Node.complete := complete;
  Node.set_error := set_error; Node.get_type := get_type
|}.
End RandomSamplingNode.


(** ** [FilterByIdNode<Predicate>] *)

Module FilterByIdNode.
Record t (T : Type) := mk { op_ : aku_ParamId -> bool; next_ : T }.
Arguments mk {T}.
Arguments op_ {T}.
Arguments next_ {T}.

Section Ops.
Context {T : Type} `{Node T}.

Definition complete (n : t T) : option (t T) :=
  next' ← Node.complete (next_ n); Some (mk (op_ n) next').

Definition put (sample : aku_Sample) (n : t T) : option (bool * t T) :=
  if payload_type sample =? aku_PData.EMPTY then
    '(ok, next') ← Node.put sample (next_ n); Some (ok, mk (op_ n) next')
  else if op_ n (paramid sample) then
    '(ok, next') ← Node.put sample (next_ n); Some (ok, mk (op_ n) next')
  else Some (true, n).

Definition set_error (status : aku_Status) (n : t T) : t T :=
  mk (op_ n) (Node.set_error status (next_ n)).

Definition get_type (_ : t T) : Node.NodeType := Node.FilterById.
End Ops.

#[global] Instance node {T} `{Node T} : Node (t T) := {|
  Node.put := put; Node.complete := complete;
  Node.set_error := set_error; Node.get_type := get_type
|}.
End FilterByIdNode.

(** ** [SlidingWindow<State>] and its two instantiations *)

(** The operations the template expects of [State].  [value] is [const] in
    the source but [MovingMedianCounter] reorders its [mutable] buffer, so
    it hands back the state; it is [None] where the source panics. *)
Class State (S : Type) := {
  state_init : S;
  reset : S -> S;
  value : S -> option (float * S);
  ready : S -> bool;
  add : aku_Sample -> S -> S
}.

Module SlidingWindow.
Record t (S T : Type) := mk {
  next_ : T;
  counters_ : gmap Z S
}.
Arguments mk {S T}.
Arguments next_ {S T}.
Arguments counters_ {S T}.

Section Ops.
Context {S T : Type} `{State S} `{Node T}.

Definition create (next : T) : t S T := mk next ∅.

(** The synthetic sample built for one ready series. *)
Definition synthetic (id : aku_ParamId) (ts : aku_Timestamp) (v : float) : aku_Sample :=
  {| paramid := id; timestamp := ts;
     payload := {| aku_PData.type := AKU_PAYLOAD_FLOAT;
                   aku_PData.value := aku_PData.Float64 v |} |}.

(** The range-for of [average_samples] over the entries [l] that are
    still to be visited; [counters] is the map as updated so far. *)
Fixpoint average_loop (ts : aku_Timestamp) (l : list (Z * S))
    (counters : gmap Z S) (next : T) : option (bool * gmap Z S * T) :=
  match l with
  | [] => Some (true, counters, next)
  | (id, state) :: l' =>
      if ready state then
        '(v, state') ← value state;
        let sample := synthetic id ts v in
        let counters' := <[id := reset state']> counters in
        '(ok, next') ← Node.put sample next;
        if ok : bool then average_loop ts l' counters' next'
        else Some (false, counters', next')
      else average_loop ts l' counters next
  end.

Definition average_samples (ts : aku_Timestamp) (n : t S T) : option (bool * t S T) :=
  '(ok, counters, next) ←
    average_loop ts (map_to_list (counters_ n)) (counters_ n) (next_ n);
  if ok : bool then
    '(ok', next') ← Node.put EMPTY_SAMPLE next;
    Some (ok', mk next' counters)
  else Some (false, mk next counters).

Definition complete (n : t S T) : option (t S T) :=
  next' ← Node.complete (next_ n); Some (mk next' (counters_ n)).

Definition put (sample : aku_Sample) (n : t S T) : option (bool * t S T) :=
  (* ignore BLOBs *)
  if payload_type sample =? aku_PData.EMPTY then
    '(ok, n') ← average_samples (timestamp sample) n;
    if ok : bool then Some (true, n') else Some (false, n')
  else
    let state := default state_init (counters_ n !! paramid sample) in
    Some (true, mk (next_ n) (<[paramid sample := add sample state]> (counters_ n))).

Definition set_error (status : aku_Status) (n : t S T) : t S T :=
  mk (Node.set_error status (next_ n)) (counters_ n).

Definition get_type (_ : t S T) : Node.NodeType := Node.Resampler.
End Ops.

#[global] Instance node {S T} `{State S} `{Node T} : Node (t S T) := {|
  Node.put := put; Node.complete := complete;
  Node.set_error := set_error; Node.get_type := get_type
|}.
End SlidingWindow.

Module MovingAverageCounter.
Record t := mk { acc : float; num : Z }.

Definition init : t := mk 0 0.
Definition reset (_ : t) : t := mk 0 0.
Definition value (c : t) : float := (acc c / Double.of_size_t (num c))%float.
Definition ready (c : t) : bool := negb (num c =? 0).
Definition add (sample : aku_Sample) (c : t) : t :=
  mk (acc c + payload_float64 sample)%float (u64 (num c + 1)).

#[global] Instance state : State t :=
  Build_State t init reset (fun c => Some (value c, c)) ready add.
End MovingAverageCounter.

Module MovingAverage.
Record t (T : Type) := mk { base : SlidingWindow.t MovingAverageCounter.t T }.
Arguments mk {T}.
Arguments base {T}.

Section Ops.
Context {T : Type} `{Node T}.
Definition create (next : T) : t T := mk (SlidingWindow.create next).
Definition put (sample : aku_Sample) (n : t T) : option (bool * t T) :=
  '(ok, b) ← SlidingWindow.put sample (base n); Some (ok, mk b).
Definition complete (n : t T) : option (t T) :=
  b ← SlidingWindow.complete (base n); Some (mk b).
Definition set_error (status : aku_Status) (n : t T) : t T :=
  mk (SlidingWindow.set_error status (base n)).
Definition get_type (_ : t T) : Node.NodeType := Node.MovingAverage.
End Ops.

#[global] Instance node {T} `{Node T} : Node (t T) := {|
  Node.put := put; Node.complete := complete;
  Node.set_error := set_error; Node.get_type := get_type
|}.
End MovingAverage.

Module MovingMedianCounter.
Record t := mk { acc : list float }.

Definition init : t := mk [].
Definition reset (_ : t) : t := mk [].

Definition value `{StdPartialSort} (c : t) : option (float * t) :=
  match acc c with
  | [] => None (* AKU_PANIC *)
  | [x] => Some (x, c)
  | _ =>
      let middle := (length (acc c) / 2)%nat in
      let sorted := std_partial_sort middle (acc c) in
      x ← sorted !! middle; Some (x, mk sorted)
  end.

Definition ready (c : t) : bool :=
  match acc c with [] => false | _ => true end.

Definition add (sample : aku_Sample) (c : t) : t :=
  mk (acc c ++ [payload_float64 sample]).

#[global] Instance state `{StdPartialSort} : State t :=
  Build_State t init reset value ready add.
End MovingMedianCounter.

Module MovingMedian.
Record t (T : Type) := mk { base : SlidingWindow.t MovingMedianCounter.t T }.
Arguments mk {T}.
Arguments base {T}.

Section Ops.
Context {T : Type} `{StdPartialSort} `{Node T}.
Definition create (next : T) : t T := mk (SlidingWindow.create next).
Definition put (sample : aku_Sample) (n : t T) : option (bool * t T) :=
  '(ok, b) ← SlidingWindow.put sample (base n); Some (ok, mk b).
Definition complete (n : t T) : option (t T) :=
  b ← SlidingWindow.complete (base n); Some (mk b).
Definition set_error (status : aku_Status) (n : t T) : t T :=
  mk (SlidingWindow.set_error status (base n)).
Definition get_type (_ : t T) : Node.NodeType := Node.MovingMedian.
End Ops.

#[global] Instance node {T} `{StdPartialSort} `{Node T} : Node (t T) := {|
  Node.put := put; Node.complete := complete;
  Node.set_error := set_error; Node.get_type := get_type
|}.
End MovingMedian.


(** ** [SpaceSaver<weighted>] *)

Module SpaceSaver.
Module Item.
Record t := mk { count : float; error : float }.
End Item.

Record t (T : Type) := mk {
  next_ : T;
  counters_ : gmap Z Item.t;
  N : float;
  M : Z;
  P : float
}.
Arguments mk {T}.
Arguments next_ {T}.
Arguments counters_ {T}.
Arguments N {T}.
Arguments M {T}.
Arguments P {T}.

(** The comparison handed to [std::sort] in [count]. *)
Definition by_count_desc (lhs rhs : aku_Sample) : bool :=
  (payload_float64 rhs <? payload_float64 lhs)%float.

(** The linear scan for the smallest count.  [min_iter] is [None] while it
    still is [counters_.end()]; [min] is the [size_t] of the source, so the
    comparison converts it to [double] and the assignment converts the
    count to [size_t]. *)
Fixpoint min_scan (l : list (Z * Item.t)) (min_iter : option Z) (min : Z)
    : option (option Z * Z) :=
  match l with
  | [] => Some (min_iter, min)
  | (id, item) :: l' =>
      if (Item.count item <? Double.of_size_t min)%float then
        min' ← Double.to_size_t (Item.count item);
        min_scan l' (Some id) min'
      else min_scan l' min_iter min
  end.

Section Ops.
Context {T : Type} `{Indeterminate} `{Node T}.

(** The constructor; the two [assert]s abort when they fail. *)
Definition create (error portion : float) (next : T) : option (t T) :=
  m ← Double.ceil_to_size_t (1 / error)%float;
  if ((0 <=? portion) && (portion <=? 1))%float
  then Some (mk next ∅ 0%float m portion)
  else None.

(** The sample [count] builds for one reported entry; its timestamp is
    never assigned. *)
Definition report (id : aku_ParamId) (item : Item.t) : aku_Sample :=
  {| paramid := id; timestamp := timestamp indeterminate_sample;
     payload := {| aku_PData.type := Z.lor aku_PData.PARAMID_BIT aku_PData.FLOAT_BIT;
                   aku_PData.value := aku_PData.Float64 (Item.count item) |} |}.

Definition supported (support : float) (item : Item.t) : bool :=
  (support <? Item.count item - Item.error item)%float.

(** The samples collected by the first loop of [count], in map order. *)
Definition candidates (n : t T) : list aku_Sample :=
  let support := (N n * P n)%float in
  map (fun kv => report kv.1 kv.2)
      (filter (fun kv => supported support kv.2 = true) (map_to_list (counters_ n))).

Definition count (n : t T) : option (bool * t T) :=
  let samples := std_sort by_count_desc (candidates n) in
  '(ok, next') ← put_all samples (next_ n);
  if ok : bool
  then Some (true, mk next' ∅ (N n) (M n) (P n))
  else Some (false, mk next' (counters_ n) (N n) (M n) (P n)).

Definition complete (n : t T) : option (t T) :=
  '(_, n') ← count n;
  next' ← Node.complete (next_ n');
  Some (mk next' (counters_ n') (N n') (M n') (P n')).

Definition put (weighted : bool) (sample : aku_Sample) (n : t T) : option (bool * t T) :=
  if payload_type sample =? aku_PData.EMPTY then count n
  else if weighted && (Z.land (payload_type sample) aku_PData.FLOAT_BIT =? 0) then
    Some (true, n)
  else
    let id := paramid sample in
    let weight := if weighted then payload_float64 sample else 1%float in
    match counters_ n !! id with
    | None =>
        (* new element *)
        '(counters, count, error) ←
          (if Z.of_nat (size (counters_ n)) =? M n then
             (* remove element with smallest count *)
             '(min_iter, min) ← min_scan (map_to_list (counters_ n)) None SIZE_MAX;
             victim ← min_iter; (* erasing [end()] is undefined *)
             Some (delete victim (counters_ n),
                   (weight + Double.of_size_t min)%float,
                   Double.of_size_t min)
           else Some (counters_ n, weight, 0%float));
        Some (true, mk (next_ n) (<[id := Item.mk count error]> counters)
                       (N n + weight)%float (M n) (P n))
    | Some item =>
        (* increment *)
        Some (true, mk (next_ n)
                       (<[id := Item.mk (Item.count item + weight)%float (Item.error item)]>
                          (counters_ n))
                       (N n + weight)%float (M n) (P n))
    end.

Definition set_error (status : aku_Status) (n : t T) : t T :=
  mk (Node.set_error status (next_ n)) (counters_ n) (N n) (M n) (P n).

Definition get_type (_ : t T) : Node.NodeType := Node.SpaceSaver.
End Ops.
End SpaceSaver.

(** [SpaceSaver<false>] (frequent items) and [SpaceSaver<true>] (heavy
    hitters) as nodes. *)
Module FrequentItems.
Record t (T : Type) := mk { base : SpaceSaver.t T }.
Arguments mk {T}.
Arguments base {T}.
Definition weighted : bool := false.

#[global] Instance node {T} `{Indeterminate} `{Node T} : Node (t T) := {|
  Node.put s n := '(ok, b) ← SpaceSaver.put weighted s (base n); Some (ok, mk b);
  Node.complete n := b ← SpaceSaver.complete (base n); Some (mk b);
  Node.set_error st n := mk (SpaceSaver.set_error st (base n));
  Node.get_type n := SpaceSaver.get_type (base n)
|}.
End FrequentItems.

Module HeavyHitters.
Record t (T : Type) := mk { base : SpaceSaver.t T }.
Arguments mk {T}.
Arguments base {T}.
Definition weighted : bool := true.

#[global] Instance node {T} `{Indeterminate} `{Node T} : Node (t T) := {|
  Node.put s n := '(ok, b) ← SpaceSaver.put weighted s (base n); Some (ok, mk b);
  Node.complete n := b ← SpaceSaver.complete (base n); Some (mk b);
  Node.set_error st n := mk (SpaceSaver.set_error st (base n));
  Node.get_type n := SpaceSaver.get_type (base n)
|}.
End HeavyHitters.

(** ** [AnomalyDetector] *)

(** [AnomalyDetectorIface] is declared in [anomalydetector.h]; the node only
    relies on these three operations. *)
Class AnomalyDetectorIface (D : Type) := {
  detector_add : aku_ParamId -> float -> D -> D;
  is_anomaly_candidate : aku_ParamId -> D -> bool;
  move_sliding_window : D -> D
}.

Module AnomalyDetector.
Inductive FcastMethod :=
| SMA | EWMA | SMA_SKETCH | EWMA_SKETCH
| DOUBLE_HOLT_WINTERS | DOUBLE_HOLT_WINTERS_SKETCH.

Record t (D T : Type) := mk { next_ : T; detector_ : D }.
Arguments mk {D T}.
Arguments next_ {D T}.
Arguments detector_ {D T}.

Section Ops.
Context {D T : Type} `{AnomalyDetectorIface D} `{Node T}.

Definition complete (n : t D T) : option (t D T) :=
  next' ← Node.complete (next_ n); Some (mk next' (detector_ n)).

Definition set_error (status : aku_Status) (n : t D T) : t D T :=
  mk (Node.set_error status (next_ n)) (detector_ n).

Definition put (sample : aku_Sample) (n : t D T) : option (bool * t D T) :=
  if payload_type sample =? aku_PData.EMPTY then
    let detector := move_sliding_window (detector_ n) in
    '(ok, next') ← Node.put sample (next_ n); Some (ok, mk next' detector)
  else if negb (Z.land (payload_type sample) aku_PData.FLOAT_BIT =? 0) then
    if (payload_float64 sample <? 0)%float then
      Some (false, set_error AKU_EANOMALY_NEG_VAL n)
    else
      let detector := detector_add (paramid sample) (payload_float64 sample) (detector_ n) in
      if is_anomaly_candidate (paramid sample) detector then
        let anomaly :=
          with_type (Z.lor (payload_type sample) aku_PData.URGENT) sample in
        '(ok, next') ← Node.put anomaly (next_ n); Some (ok, mk next' detector)
      else Some (true, mk (next_ n) detector)
  else
    (* Ignore BLOBs *)
    Some (true, n).

Definition get_type (_ : t D T) : Node.NodeType := Node.AnomalyDetector.
End Ops.

#[global] Instance node {D T} `{AnomalyDetectorIface D} `{Node T} : Node (t D T) := {|
  Node.put := put; Node.complete := complete;
  Node.set_error := set_error; Node.get_type := get_type
|}.
End AnomalyDetector.


(** ** Factory methods ([NodeBuilder]) *)

(** The exceptions that travel through [make_sampler]. *)
Inductive Exception :=
| NodeException (type : Node.NodeType) (msg : string)
| QueryParserError (msg : string)
| ptree_bad_path (path : string)
| ptree_bad_data (path : string)
| bad_lexical_cast
| thrown_literal (msg : string)
| std_length_error
| std_bad_alloc.

(** What a call does: it returns, it throws, or its behaviour is undefined. *)
Inductive Outcome (A : Type) :=
| Returns (a : A)
| Throws (e : Exception)
| Undefined.
Arguments Returns {A}.
Arguments Throws {A}.
Arguments Undefined {A}.

#[global] Instance Outcome_bind : MBind Outcome := fun A B k m =>
  match m with
  | Returns a => k a
  | Throws e => Throws e
  | Undefined => Undefined
  end.

(** The conversions of Boost that the builder calls: [boost::lexical_cast]
    and the stream translators behind [ptree::get<T>].  They belong to the
    library, so they are parameters. *)
Class Conversions := {
  lexical_cast_uint32 : string -> option Z;
  lexical_cast_double : string -> option float;
  translate_double : string -> option float;
  translate_uint32 : string -> option Z;
  translate_bool : string -> option bool
}.

(** [boost::property_tree::ptree] as far as the builder reads it: the data
    of the children of the root, by key, in document order. *)
Definition ptree := list (string * string).

Module Ptree.
Fixpoint find (path : string) (pt : ptree) : option string :=
  match pt with
  | [] => None
  | (k, v) :: pt' => if String.eqb k path then Some v else find path pt'
  end.

(** [get<std::string>(path)] *)
Definition get_string (path : string) (pt : ptree) : Outcome string :=
  match find path pt with
  | Some v => Returns v
  | None => Throws (ptree_bad_path path)
  end.

(** [get<T>(path)] through the translator [tr] *)
Definition get {A} (tr : string -> option A) (path : string) (pt : ptree) : Outcome A :=
  v ← get_string path pt;
  match tr v with
  | Some a => Returns a
  | None => Throws (ptree_bad_data path)
  end.

(** [get<T>(path, default_value)]: the default stands in for a missing
    child and for a value that does not convert. *)
Definition get_default {A} (tr : string -> option A) (path : string) (d : A) (pt : ptree) : A :=
  match find path pt with
  | Some v => default d (tr v)
  | None => d
  end.
End Ptree.

Definition lexical_cast {A} (conv : string -> option A) (s : string) : Outcome A :=
  match conv s with
  | Some a => Returns a
  | None => Throws bad_lexical_cast
  end.

Definition parse_anomaly_detector_type `{Conversions} (pt : ptree)
    : Outcome AnomalyDetector.FcastMethod :=
  approx ← Ptree.get translate_bool "approx" pt;
  name ← Ptree.get_string "method" pt;
  if String.eqb name "ewma" then
    Returns (if approx : bool then AnomalyDetector.EWMA_SKETCH else AnomalyDetector.EWMA)
  else if String.eqb name "sma" then
    Returns (if approx : bool then AnomalyDetector.SMA_SKETCH else AnomalyDetector.SMA)
  else if String.eqb name "double-hw" then
    Returns (if approx : bool then AnomalyDetector.DOUBLE_HOLT_WINTERS_SKETCH
             else AnomalyDetector.DOUBLE_HOLT_WINTERS)
  else Throws (QueryParserError "Unknown forecasting method").

Module NodeBuilder.
(** The node [make_sampler] hands back.  The detectors behind
    [AnomalyDetector] come from [AnomalyDetectorUtil], which is not among
    the sources, so that case keeps the constructor's arguments. *)
Inductive Sampler (T : Type) :=
| Reservoir (n : RandomSamplingNode.t T)
| Average (n : MovingAverage.t T)
| Median (n : MovingMedian.t T)
| Frequent (n : FrequentItems.t T)
| Heavy (n : HeavyHitters.t T)
| Anomaly (nhashes bits : Z) (threshold : float) (window_depth : Z)
          (method : AnomalyDetector.FcastMethod) (next : T).
Arguments Reservoir {T}.
Arguments Average {T}.
Arguments Median {T}.
Arguments Frequent {T}.
Arguments Heavy {T}.
Arguments Anomaly {T}.

Definition SLIDING_WINDOW (m : AnomalyDetector.FcastMethod) : bool :=
  match m with
  | AnomalyDetector.SMA | AnomalyDetector.SMA_SKETCH
  | AnomalyDetector.EWMA | AnomalyDetector.EWMA_SKETCH => true
  | _ => false
  end.

Definition HOLT_WINTERS (m : AnomalyDetector.FcastMethod) : bool :=
  match m with
  | AnomalyDetector.DOUBLE_HOLT_WINTERS
  | AnomalyDetector.DOUBLE_HOLT_WINTERS_SKETCH => true
  | _ => false
  end.

Section Builder.
Context {T : Type} `{Conversions} `{Indeterminate} `{Node T} `{FreeStore}.

Definition of_option {A} (o : option A) : Outcome A :=
  match o with Some a => Returns a | None => Undefined end.

Definition unknown_algorithm : Outcome (Sampler T) :=
  Throws (NodeException Node.RandomSampler
            "invalid sampler description, unknown algorithm").

(** The body of the [try] block; [random] seeds a reservoir. *)
Definition make_sampler_body (pt : ptree) (random : Rand) (next : T)
    : Outcome (Sampler T) :=
  name ← Ptree.get_string "name" pt;
  if String.eqb name "reservoir" then
    (* Reservoir sampling *)
    size ← Ptree.get_string "size" pt;
    nsize ← lexical_cast lexical_cast_uint32 size;
    match RandomSamplingNode.construct nsize random next with
    | inr node => Returns (Reservoir node)
    | inl length_error => Throws std_length_error
    | inl bad_alloc => Throws std_bad_alloc
    end
  else if String.eqb name "moving-average" then
    Returns (Average (MovingAverage.create next))
  else if String.eqb name "moving-median" then
    Returns (Median (MovingMedian.create next))
  else if String.eqb name "frequent-items" then
    serror ← Ptree.get_string "error" pt;
    sportion ← Ptree.get_string "portion" pt;
    error ← lexical_cast lexical_cast_double serror;
    portion ← lexical_cast lexical_cast_double sportion;
    n ← of_option (SpaceSaver.create error portion next);
    Returns (Frequent (FrequentItems.mk n))
  else if String.eqb name "heavy-hitters" then
    serror ← Ptree.get_string "error" pt;
    sportion ← Ptree.get_string "portion" pt;
    error ← lexical_cast lexical_cast_double serror;
    portion ← lexical_cast lexical_cast_double sportion;
    n ← of_option (SpaceSaver.create error portion next);
    Returns (Heavy (HeavyHitters.mk n))
  else if String.eqb name "anomaly-detector" then
    threshold ← Ptree.get translate_double "threshold" pt;
    method ← parse_anomaly_detector_type pt;
    if SLIDING_WINDOW method then
      let bits := Ptree.get_default translate_uint32 "bits" 10 pt in
      let hashes := Ptree.get_default translate_uint32 "hashes" 3 pt in
      window ← Ptree.get translate_uint32 "window" pt;
      Returns (Anomaly hashes bits threshold window method next)
    else if HOLT_WINTERS method then
      Throws (thrown_literal "Not implemented")
    else unknown_algorithm
  else
    (* only this one is implemented *)
    unknown_algorithm.

(** The [try] block with its two handlers. *)
Definition make_sampler (pt : ptree) (random : Rand) (next : T) : Outcome (Sampler T) :=
  match make_sampler_body pt random next with
  | Throws (ptree_bad_path _) | Throws (ptree_bad_data _) =>
      Throws (NodeException Node.RandomSampler "invalid sampler description")
  | Throws bad_lexical_cast =>
      Throws (NodeException Node.RandomSampler
                "invalid sampler description, valid integer expected")
  | r => r
  end.

(** The three filter factories; the log line they write is not part of
    the model. *)
Definition make_filter_by_id (id : aku_ParamId) (next : T) : FilterByIdNode.t T :=
  FilterByIdNode.mk (fun id' => id' =? id) next.

Definition make_filter_by_id_list (ids : list aku_ParamId) (next : T)
    : FilterByIdNode.t T :=
  let idset : gset Z := list_to_set ids in
  FilterByIdNode.mk (fun id => bool_decide (id ∈ idset)) next.

Definition make_filter_out_by_id_list (ids : list aku_ParamId) (next : T)
    : FilterByIdNode.t T :=
  let idset : gset Z := list_to_set ids in
  FilterByIdNode.mk (fun id => bool_decide (id ∉ idset)) next.
End Builder.
End NodeBuilder.


(** ** [GroupByStatement] and [ScanQueryProcessor] *)

Module GroupByStatement.
Record t := mk {
  step_ : aku_Timestamp;
  first_hit_ : bool;
  lowerbound_ : aku_Timestamp;
  upperbound_ : aku_Timestamp
}.

Definition create (step : aku_Timestamp) : t :=
  mk step true AKU_MIN_TIMESTAMP AKU_MIN_TIMESTAMP.

Section Ops.
Context {T : Type} `{Node T}.

(** The alignment done on the first hit. *)
Definition align (ts : aku_Timestamp) (g : t) : t :=
  if first_hit_ g then
    let aligned := u64 (ts / step_ g * step_ g) in
    mk (step_ g) false aligned (u64 (aligned + step_ g))
  else g.

Definition put (sample : aku_Sample) (g : t) (next : T) : option (bool * t * T) :=
  if step_ g =? 0 then
    '(ok, next') ← Node.put sample next; Some (ok, g, next')
  else
    let ts := timestamp sample in
    let g := align ts g in
    if upperbound_ g <=? ts then
      (* Forward direction *)
      '(ok, next') ← Node.put (with_timestamp (upperbound_ g) EMPTY_SAMPLE) next;
      if ok : bool then
        let g := mk (step_ g) (first_hit_ g)
                    (u64 (lowerbound_ g + step_ g)) (u64 (upperbound_ g + step_ g)) in
        '(ok, next'') ← Node.put sample next'; Some (ok, g, next'')
      else Some (false, g, next')
    else if ts <? lowerbound_ g then
      (* Backward direction *)
      '(ok, next') ← Node.put (with_timestamp (upperbound_ g) EMPTY_SAMPLE) next;
      if ok : bool then
        let g := mk (step_ g) (first_hit_ g)
                    (u64 (lowerbound_ g - step_ g)) (u64 (upperbound_ g - step_ g)) in
        '(ok, next'') ← Node.put sample next'; Some (ok, g, next'')
      else Some (false, g, next')
    else
      '(ok, next') ← Node.put sample next; Some (ok, g, next').
End Ops.
End GroupByStatement.

Inductive aku_CursorDirection := AKU_CURSOR_DIR_FORWARD | AKU_CURSOR_DIR_BACKWARD.

Module ScanQueryProcessor.
Record t (T : Type) := mk {
  lowerbound_ : aku_Timestamp;
  upperbound_ : aku_Timestamp;
  direction_ : aku_CursorDirection;
  metrics_ : list string;
  groupby_ : GroupByStatement.t;
  root_node_ : T
}.
Arguments mk {T}.
Arguments lowerbound_ {T}.
Arguments upperbound_ {T}.
Arguments direction_ {T}.
Arguments metrics_ {T}.
Arguments groupby_ {T}.
Arguments root_node_ {T}.

Section Ops.
Context {T : Type} `{Node T}.

Definition create (root : T) (metrics : list string)
    (begin end_ : aku_Timestamp) (groupby : GroupByStatement.t) : t T :=
  mk (Z.min begin end_) (Z.max begin end_)
     (if end_ <? begin then AKU_CURSOR_DIR_BACKWARD else AKU_CURSOR_DIR_FORWARD)
     metrics groupby root.

Definition with_chain (q : t T) (g : GroupByStatement.t) (root : T) : t T :=
  mk (lowerbound_ q) (upperbound_ q) (direction_ q) (metrics_ q) g root.

Definition start (q : t T) : bool := true.

Definition put (sample : aku_Sample) (q : t T) : option (bool * t T) :=
  '(ok, g, root) ← GroupByStatement.put sample (groupby_ q) (root_node_ q);
  Some (ok, with_chain q g root).

Definition stop (q : t T) : option (t T) :=
  root ← Node.complete (root_node_ q); Some (with_chain q (groupby_ q) root).

Definition set_error (error : aku_Status) (q : t T) : t T :=
  with_chain q (groupby_ q) (Node.set_error error (root_node_ q)).

(** The producer: feed the samples while the processor accepts them
    (a [false] return stops production), then [stop]. *)
Fixpoint feed (l : list aku_Sample) (q : t T) : option (t T) :=
  match l with
  | [] => Some q
  | s :: l' =>
      '(ok, q') ← put s q;
      if ok : bool then feed l' q' else Some q'
  end.

Definition run (l : list aku_Sample) (q : t T) : option (t T) :=
  q' ← feed l q; stop q'.
End Ops.
End ScanQueryProcessor.

(** ** [MetadataQueryProcessor] *)

Module MetadataQueryProcessor.
Record t (T : Type) := mk { ids_ : list aku_ParamId; root_ : T }.
Arguments mk {T}.
Arguments ids_ {T}.
Arguments root_ {T}.

Section Ops.
Context {T : Type} `{Indeterminate} `{Node T}.

Definition create (ids : list aku_ParamId) (node : T) : t T := mk ids node.

Definition lowerbound (_ : t T) : aku_Timestamp := AKU_MAX_TIMESTAMP.
Definition upperbound (_ : t T) : aku_Timestamp := AKU_MAX_TIMESTAMP.
Definition direction (_ : t T) : aku_CursorDirection := AKU_CURSOR_DIR_FORWARD.

(** The sample [start] builds for one id; its payload value is never
    assigned. *)
Definition sample_of (id : aku_ParamId) : aku_Sample :=
  {| paramid := id; timestamp := 0;
     payload := {| aku_PData.type := aku_PData.PARAMID_BIT;
                   aku_PData.value := aku_PData.value (payload indeterminate_sample) |} |}.

(** The range-for of [start] over the ids still to be sent. *)
Fixpoint start_loop (ids : list aku_ParamId) (root : T) : option (bool * T) :=
  match ids with
  | [] => Some (true, root)
  | id :: ids' =>
      '(ok, root') ← Node.put (sample_of id) root;
      if ok : bool then start_loop ids' root' else Some (false, root')
  end.

Definition start (q : t T) : option (bool * t T) :=
  '(ok, root) ← start_loop (ids_ q) (root_ q); Some (ok, mk (ids_ q) root).

Definition put (sample : aku_Sample) (q : t T) : bool * t T :=
  (* no-op *)
  (false, q).

Definition stop (q : t T) : option (t T) :=
  root ← Node.complete (root_ q); Some (mk (ids_ q) root).

Definition set_error (error : aku_Status) (q : t T) : t T :=
  mk (ids_ q) (Node.set_error error (root_ q)).
End Ops.
End MetadataQueryProcessor.


(** ** Producers and the scenarios of the specification *)

(** The producer of a chain: it calls [put] for each sample and stops
    producing at the first [false]. *)
Fixpoint feed {T} `{Node T} (l : list aku_Sample) (n : T) : option T :=
  match l with
  | [] => Some n
  | s :: l' =>
      '(ok, n') ← Node.put s n;
      if ok : bool then feed l' n' else Some n'
  end.

(** Stand-ins for what the scenarios need from outside the sources. *)
Module Fixture.
(** The contents of uninitialised storage in the scenarios. *)
Definition junk : Indeterminate :=
  {| paramid := 3735928559; timestamp := 3735928559;
     payload := {| aku_PData.type := 0; aku_PData.value := aku_PData.Float64 0 |} |}.

Fixpoint parse_digits (s : string) (acc : Z) : option Z :=
  match s with
  | EmptyString => Some acc
  | String c s' =>
      let d := Z.of_nat (Ascii.nat_of_ascii c) - 48 in
      if (0 <=? d) && (d <=? 9) then parse_digits s' (10 * acc + d) else None
  end.

(** Unsigned decimal integers. *)
Definition parse_decimal (s : string) : option Z :=
  match s with
  | EmptyString => None
  | _ => parse_digits s 0
  end.

Definition parse_uint32 (s : string) : option Z :=
  n ← parse_decimal s; if n <? 2 ^ 32 then Some n else None.

Definition parse_double (s : string) : option float :=
  n ← parse_decimal s; if n <=? SIZE_MAX then Some (Double.of_size_t n) else None.

Definition parse_bool (s : string) : option bool :=
  if String.eqb s "true" then Some true
  else if String.eqb s "false" then Some false
  else None.

(** Conversions that read unsigned decimal integers only; enough for the
    descriptions used below. *)
Definition conversions : Conversions := {|
  lexical_cast_uint32 := parse_uint32;
  lexical_cast_double := parse_double;
  translate_double := parse_double;
  translate_uint32 := parse_uint32;
  translate_bool := parse_bool
|}.

(** A detector that remembers the last value of every series and takes a
    value above [limit] for an anomaly. *)
Record Threshold := mk_Threshold { limit : float; last : gmap Z float }.

#[global] Instance Threshold_detector : AnomalyDetectorIface Threshold := {|
  detector_add id v d := mk_Threshold (limit d) (<[id := v]> (last d));
  is_anomaly_candidate id d :=
    match last d !! id with
    | Some v => (limit d <? v)%float
    | None => false
    end;
  move_sliding_window d := mk_Threshold (limit d) ∅
|}.

(** A free store with room for [2^20] samples. *)
Definition free_store : FreeStore :=
  fun n => if n <=? 2 ^ 20 then None else Some bad_alloc.
End Fixture.

(** The producer's whole session: the samples, then [complete]. *)
Definition run {T} `{Node T} (l : list aku_Sample) (n : T) : option T :=
  n' ← feed l n; Node.complete n'.

Module Scenario.
#[local] Existing Instance Fixture.junk.

Definition sink : Recorder := mk_Recorder [].

(** What the sink behind a node has received. *)
Definition received {A} (next : A -> Recorder) (n : option A) : option (list Event) :=
  n ← n; Some (events (next n)).

(** Scenario 1: group-by of width 10 in front of the include-set {7}. *)
Definition filter_groupby : ScanQueryProcessor.t (FilterByIdNode.t Recorder) :=
  ScanQueryProcessor.create (NodeBuilder.make_filter_by_id_list [7] sink)
    [] 0 100 (GroupByStatement.create 10).

Definition filter_groupby_inputs : list aku_Sample :=
  [float_sample 7 3 1; float_sample 8 4 9; float_sample 7 12 2; float_sample 7 25 3].

Definition filter_groupby_received : option (list Event) :=
  received (fun q => FilterByIdNode.next_ (ScanQueryProcessor.root_node_ q))
           (ScanQueryProcessor.run filter_groupby_inputs filter_groupby).

(** Scenario 2: moving average, three samples and the sentinel at [t]
    (the specification takes [t = 10]). *)
Definition moving_average_inputs (t : aku_Timestamp) : list aku_Sample :=
  [float_sample 1 1 2; float_sample 1 2 4; float_sample 2 3 10; sentinel t].

Definition moving_average_received (t : aku_Timestamp) : option (list Event) :=
  received (fun n => SlidingWindow.next_ (MovingAverage.base n))
           (feed (moving_average_inputs t) (MovingAverage.create sink)).

(** A blob sample: no [FLOAT_BIT], the union holds a pointer and a size. *)
Definition blob_sample : aku_Sample :=
  {| paramid := 1; timestamp := 5;
     payload := {| aku_PData.type :=
                     Z.lor (Z.lor aku_PData.PARAMID_BIT aku_PData.TIMESTAMP_BIT)
                           aku_PData.BLOB_BIT;
                   aku_PData.value := aku_PData.Blob 140737488347136 3 |} |}.

(** A moving average that is given a float sample and a blob sample of
    one series, then the sentinel. *)
Definition blob_average_received : option (list Event) :=
  received (fun n => SlidingWindow.next_ (MovingAverage.base n))
           (feed [float_sample 1 1 2; blob_sample; sentinel 10] (MovingAverage.create sink)).

(** The counters and the cumulative weight of a Space-Saving node. *)
Definition tally {T} (n : SpaceSaver.t T) : gmap Z SpaceSaver.Item.t * float :=
  (SpaceSaver.counters_ n, SpaceSaver.N n).

(** Heavy hitters with [error] (capacity [ceil (1 / error)]) fed [l]. *)
Definition heavy_hitters (error : float) (l : list aku_Sample)
    : option (gmap Z SpaceSaver.Item.t * float) :=
  n ← SpaceSaver.create error 0.5 sink;
  n' ← feed l (HeavyHitters.mk n);
  Some (tally (HeavyHitters.base n')).

(** Frequent items with [error] fed [l]. *)
Definition frequent_items (error : float) (l : list aku_Sample)
    : option (gmap Z SpaceSaver.Item.t * float) :=
  n ← SpaceSaver.create error 0.5 sink;
  n' ← feed l (FrequentItems.mk n);
  Some (tally (FrequentItems.base n')).

(** A frequent-items node of capacity two after its first data sample. *)
Definition after_one_put : SpaceSaver.t Recorder :=
  SpaceSaver.mk sink {[ 1 := SpaceSaver.Item.mk 1 0 ]} 1 2 0.5.

(** An anomaly detector over the sink whose detector flags values above 100. *)
Definition anomaly_node : AnomalyDetector.t Fixture.Threshold Recorder :=
  AnomalyDetector.mk sink (Fixture.mk_Threshold 100 ∅).

(** A generator for the reservoir scenarios. *)
Definition random : Rand := mk_Rand (fun n => Z.of_nat n * 7 + 3) 0.

(** A full reservoir of capacity two. *)
Definition full_reservoir : RandomSamplingNode.t Recorder :=
  RandomSamplingNode.mk 2 [float_sample 1 5 0; float_sample 2 3 0] random sink.

(** The same reservoir over a sink that takes one sample and refuses the
    next. *)
Definition refused_reservoir : RandomSamplingNode.t Limited :=
  RandomSamplingNode.mk 2 [float_sample 1 5 0; float_sample 2 3 0] random (mk_Limited 1 []).

(** A moving average that holds the sum 6 of two samples of series 1. *)
Definition loaded_average : SlidingWindow.t MovingAverageCounter.t Recorder :=
  SlidingWindow.mk sink {[ 1 := MovingAverageCounter.mk 6 2 ]}.

(** A frequent-items node of capacity two as constructed. *)
Definition fresh_frequent_items : SpaceSaver.t Recorder :=
  SpaceSaver.mk sink ∅ 0 2 0.5.


(** An anomaly-detector description that asks for Holt-Winters. *)
Definition anomaly_double_hw : ptree :=
  [("name", "anomaly-detector"); ("threshold", "3"); ("approx", "false");
   ("method", "double-hw")]%string.


(** A reservoir of capacity [k] over the sink, fed [l] and completed. *)
Definition reservoir_received (k : Z) (l : list aku_Sample) : option (list Event) :=
  received RandomSamplingNode.next_ (run l (RandomSamplingNode.create k random sink)).
End Scenario.

(** Two buckets for a frequent-items node with error 0.5 (capacity 2) and
    portion 0.5: ten samples of series 1, then four samples of series 2,
    each bucket closed by an empty sentinel. *)
Module Buckets.
#[local] Existing Instance Fixture.junk.

Definition first : list aku_Sample := replicate 10 (float_sample 1 1 0) ++ [sentinel 10].
Definition second : list aku_Sample := replicate 4 (float_sample 2 11 0) ++ [sentinel 20].

(** What the sink has received from the node fed [l], and the node's [N]. *)
Definition frequent_items_session (l : list aku_Sample) : option (list Event * float) :=
  n ← SpaceSaver.create 0.5 0.5 Scenario.sink;
  n' ← feed l (FrequentItems.mk n);
  Some (events (SpaceSaver.next_ (FrequentItems.base n')),
        SpaceSaver.N (FrequentItems.base n')).

(** The sample [count] reports for a series that was counted [count] times
    and never took over an evicted entry. *)
Definition reported (id : aku_ParamId) (count : float) : aku_Sample :=
  SpaceSaver.report id (SpaceSaver.Item.mk count 0).
End Buckets.


(** ** The malformed descriptions of the builder

    The three kinds the specification lists (an unknown name, a missing
    required parameter, a value that does not parse), spelled out per node
    kind for the parameters the builder requires. *)
Module Malformed.
Section Malformed.
Context `{Conversions}.

Definition known_names : list string :=
  ["reservoir"; "moving-average"; "moving-median"; "frequent-items";
   "heavy-hitters"; "anomaly-detector"]%string.

Definition named (name : string) (pt : ptree) : Prop :=
  Ptree.find "name" pt = Some name.




End Malformed.
End Malformed.


(** ** The states a Space-Saving node goes through *)

Module SpaceSaverRun.
Section Run.
Context {T : Type} `{Indeterminate} `{Node T}.

Inductive step (weighted : bool) : SpaceSaver.t T -> SpaceSaver.t T -> Prop :=
| step_put sample n ok n' :
    SpaceSaver.put weighted sample n = Some (ok, n') -> step weighted n n'
| step_complete n n' :
    SpaceSaver.complete n = Some n' -> step weighted n n'
| step_set_error status n :
    step weighted n (SpaceSaver.set_error status n).

(** The states reachable from the constructor's. *)
Definition reachable (weighted : bool) (error portion : float) (next : T)
    (n : SpaceSaver.t T) : Prop :=
  exists n0, SpaceSaver.create error portion next = Some n0 /\ rtc (step weighted) n0 n.
End Run.
End SpaceSaverRun.

(** ** Notions used in the statements *)

(** [a] may stand in front of [b] in a range sorted by [comp]: [b] does not
    compare below [a]. *)
Definition in_order {A : Type} (comp : A -> A -> bool) (a b : A) : Prop :=
  comp b a = false.

(** The index [RandomSamplingNode::put] draws for a full buffer. *)
Definition drawn {T} (n : RandomSamplingNode.t T) : Z :=
  u32 ((Rand_call (RandomSamplingNode.random_ n)).1
       mod Z.of_nat (length (RandomSamplingNode.samples_ n))).

(** What an empty sentinel at [ts] makes of one series of a sliding window:
    the sample it emits, if the state is ready, and the state it leaves. *)
Definition synthesized {S} `{State S} (ts : aku_Timestamp) (entry : Z * S)
    : option aku_Sample :=
  if ready entry.2
  then '(v, _) ← value entry.2; Some (SlidingWindow.synthetic entry.1 ts v)
  else None.

Definition after_sentinel {S} `{State S} (state : S) : S :=
  if ready state
  then match value state with Some (_, state') => reset state' | None => state end
  else state.

(** The update of a sliding window's map for one visited entry. *)
Definition visit {S} `{State S} (counters : gmap Z S) (entry : Z * S) : gmap Z S :=
  if ready entry.2 then <[entry.1 := after_sentinel entry.2]> counters else counters.

(** The bound on the counter map of a Space-Saving node. *)
Definition bounded {T} (n : SpaceSaver.t T) : Prop :=
  0 <= SpaceSaver.M n /\ Z.of_nat (size (SpaceSaver.counters_ n)) <= SpaceSaver.M n.

(** The state [SpaceSaver::count] leaves when the sink took the samples
    [out]: the map is empty, the other fields are as before. *)
Definition flushed (out : list aku_Sample) (n : SpaceSaver.t Recorder) : SpaceSaver.t Recorder :=
  SpaceSaver.mk (mk_Recorder (events (SpaceSaver.next_ n) ++ map OnPut out)) ∅
                (SpaceSaver.N n) (SpaceSaver.M n) (SpaceSaver.P n).

(** The three ways a data sample of weight [weight] changes the counter map
    of capacity [m]. *)
Inductive put_case (weight : float) (id : Z)
    (counters counters' : gmap Z SpaceSaver.Item.t) (m : Z) : Prop :=
| case_increment item :
    counters !! id = Some item ->
    counters' = <[id := SpaceSaver.Item.mk (SpaceSaver.Item.count item + weight)
                                           (SpaceSaver.Item.error item)]> counters ->
    put_case weight id counters counters' m
| case_insert :
    counters !! id = None -> Z.of_nat (size counters) < m ->
    counters' = <[id := SpaceSaver.Item.mk weight 0]> counters ->
    put_case weight id counters counters' m
| case_evict victim item :
    counters !! id = None -> Z.of_nat (size counters) = m ->
    counters !! victim = Some item ->
    counters' !! id <> None ->
    delete id counters' = delete victim counters ->
    put_case weight id counters counters' m.

(** ** Notions used in the further statements *)

(** The empty sentinels among the samples. *)
Definition is_sentinel (s : aku_Sample) : bool := payload_type s =? aku_PData.EMPTY.

(** What [FilterByIdNode::put] lets through: every empty sentinel, and the
    data samples whose id satisfies the predicate. *)
Definition passes (op : aku_ParamId -> bool) (s : aku_Sample) : bool :=
  is_sentinel s || op (paramid s).

(** Membership of an id in the vector handed to a filter factory. *)
Definition listed (ids : list aku_ParamId) (id : aku_ParamId) : bool :=
  bool_decide (id ∈ ids).

(** What a group-by may put in front of a sample: nothing, or one empty
    sentinel. *)
Definition mark (m : list Event) : Prop :=
  m = [] \/ exists ts, m = [OnPut (sentinel ts)].

(** The samples [l] in their order, each behind its mark. *)
Definition marked (marks : list (list Event)) (l : list aku_Sample) : list Event :=
  concat (zip_with (fun m s => m ++ [OnPut s]) marks l).

(** The window of a group-by is [step_] wide, modulo [2^64], once the first
    sample has been seen. *)
Definition window (g : GroupByStatement.t) : Prop :=
  GroupByStatement.first_hit_ g = false ->
  0 <= GroupByStatement.lowerbound_ g < 2 ^ 64
  /\ GroupByStatement.upperbound_ g
     = u64 (GroupByStatement.lowerbound_ g + GroupByStatement.step_ g).

(** The update [SlidingWindow::put] makes for a data sample:
    [counters_[sample.paramid].add(sample)]. *)
Definition absorb {S} `{State S} (counters : gmap Z S) (sample : aku_Sample) : gmap Z S :=
  <[paramid sample := add sample (default state_init (counters !! paramid sample))]> counters.

(** The state of series [id] after the data samples [l], starting from [o]
    ([None]: the series has no entry yet). *)
Definition series_state {S} `{State S} (id : aku_ParamId) (l : list aku_Sample)
    (o : option S) : option S :=
  foldl (fun o s => if paramid s =? id then Some (add s (default state_init o)) else o) o l.

(** The sum a moving average keeps: the values in their order of arrival,
    added to [0.0] from the left. *)
Definition running_sum (l : list aku_Sample) : float :=
  foldl (fun a s => a + payload_float64 s)%float 0%float l.

(** What the standard promises of [std::partial_sort(first, middle, last)]
    with [<] on a range [l] (without NaN): the result [l'] is a permutation
    of [l], its first [middle] elements are in ascending order, and none of
    the other elements compares below one of them.  The order of the other
    elements is unspecified. *)
Definition partial_sorted (middle : nat) (l l' : list float) : Prop :=
  Permutation l l'
  /\ Sorted (fun a b => (b <? a)%float = false) (take middle l')
  /\ forall x y, x ∈ take middle l' -> y ∈ drop middle l' -> (y <? x)%float = false.

(** A partial sort within that promise, for the examples: the [middle]
    smallest elements in ascending order, then the others in descending
    order. *)
Definition partial_sort_descending_tail : StdPartialSort :=
  fun middle l =>
    let sorted := stable_sort PrimFloat.ltb l in
    take middle sorted ++ rev (drop middle sorted).

(** Whether a Space-Saving node counts the sample: it is a data sample and,
    for heavy hitters, has [FLOAT_BIT]. *)
Definition counted (weighted : bool) (s : aku_Sample) : bool :=
  negb (is_sentinel s)
  && (negb weighted || negb (Z.land (payload_type s) aku_PData.FLOAT_BIT =? 0)).

(** The cumulative weight after the samples [l], from [a]. *)
Definition total_weight (weighted : bool) (l : list aku_Sample) (a : float) : float :=
  foldl (fun a s => if counted weighted s
                    then (a + (if weighted then payload_float64 s else 1))%float
                    else a) a l.




(** [get_type] of the node behind the pointer [make_sampler] returns. *)
Definition Sampler_get_type {T} (s : NodeBuilder.Sampler T) : Node.NodeType :=
  match s with
  | NodeBuilder.Reservoir n => RandomSamplingNode.get_type n
  | NodeBuilder.Average n => MovingAverage.get_type n
  | NodeBuilder.Median n => MovingMedian.get_type n
  | NodeBuilder.Frequent n => SpaceSaver.get_type (FrequentItems.base n)
  | NodeBuilder.Heavy n => SpaceSaver.get_type (HeavyHitters.base n)
  | NodeBuilder.Anomaly _ _ _ _ _ _ => Node.AnomalyDetector
  end.

(** The node kind a description's name stands for. *)
Definition described_type (name : string) : option Node.NodeType :=
  if String.eqb name "reservoir" then Some Node.RandomSampler
  else if String.eqb name "moving-average" then Some Node.MovingAverage
  else if String.eqb name "moving-median" then Some Node.MovingMedian
  else if String.eqb name "frequent-items" then Some Node.SpaceSaver
  else if String.eqb name "heavy-hitters" then Some Node.SpaceSaver
  else if String.eqb name "anomaly-detector" then Some Node.AnomalyDetector
  else None.

(** The ids among the samples [l] that a Space-Saving node counts. *)
Definition counted_ids (weighted : bool) (l : list aku_Sample) : gset Z :=
  list_to_set (paramid <$> List.filter (counted weighted) l).

(** The counter of series [id] after the samples [l] when no entry had to
    be evicted: the weights of the series' counted samples, added in order
    of arrival to the first one, and [error] 0. *)
Definition exact_step (weighted : bool) (id : aku_ParamId)
    (o : option SpaceSaver.Item.t) (s : aku_Sample) : option SpaceSaver.Item.t :=
  if counted weighted s && (paramid s =? id) then
    let weight := if weighted then payload_float64 s else 1%float in
    Some match o with
         | None => SpaceSaver.Item.mk weight 0
         | Some item =>
             SpaceSaver.Item.mk (SpaceSaver.Item.count item + weight)
                                (SpaceSaver.Item.error item)
         end
  else o.

Definition exact_item (weighted : bool) (id : aku_ParamId) (l : list aku_Sample)
    : option SpaceSaver.Item.t :=
  foldl (exact_step weighted id) None l.

(** The node holds the exact counters of the samples [seen]. *)
Definition holds_exact {T} (weighted : bool) (seen : list aku_Sample) (n : SpaceSaver.t T)
    : Prop :=
  forall id, SpaceSaver.counters_ n !! id = exact_item weighted id seen.

(** The producer's loop on [SpaceSaver<weighted>::put]. *)
Fixpoint space_saver_feed {T} `{Indeterminate} `{Node T} (weighted : bool)
    (l : list aku_Sample) (n : SpaceSaver.t T) : option (SpaceSaver.t T) :=
  match l with
  | [] => Some n
  | s :: l' =>
      '(ok, n') ← SpaceSaver.put weighted s n;
      if ok : bool then space_saver_feed weighted l' n' else Some n'
  end.

(** * Properties *)

(** ** Preliminaries *)

(** *** The recording sink *)

Lemma put_all_Recorder (l : list aku_Sample) (r : Recorder) :
  put_all l r = Some (true, mk_Recorder (events r ++ map OnPut l)).
Proof.
  revert r. induction l as [|s l IH]; intros [ev]; simpl.
  - by rewrite app_nil_r.
  - rewrite IH. simpl. by rewrite <- app_assoc.
Qed.

(** *** Comparison of doubles *)

Lemma SFcompare_antisym (a b : spec_float) :
  SFcompare b a = option_map CompOpp (SFcompare a b).
Proof.
  destruct a as [sa|sa| |sa ma ea], b as [sb|sb| |sb mb eb];
    try reflexivity; try (destruct sa; reflexivity); try (destruct sb; reflexivity);
    try (destruct sa, sb; reflexivity).
  unfold SFcompare, option_map. f_equal.
  rewrite (Z.compare_antisym ea eb).
  pose proof (Pos.compare_cont_antisym ma mb Eq) as Hm. simpl in Hm.
  destruct sa, sb; try reflexivity;
    destruct (ea ?= eb); simpl; try reflexivity; rewrite <- Hm;
    by destruct (Pos.compare_cont Eq ma mb).
Qed.

Lemma ltb_asym (x y : float) : (x <? y)%float = true -> (y <? x)%float = false.
Proof.
  rewrite !FloatAxioms.ltb_spec. unfold SFltb. rewrite (SFcompare_antisym (Prim2SF x) (Prim2SF y)).
  destruct (SFcompare (Prim2SF x) (Prim2SF y)) as [[]|]; simpl; congruence.
Qed.

(** *** Insertion sort *)

Section SortingFacts.
Context {A : Type} (comp : A -> A -> bool).

Lemma insert_sorted_Permutation x l : Permutation (insert_sorted comp x l) (x :: l).
Proof.
  induction l as [|y l IH]; simpl; [done|].
  destruct (comp y x); [|done].
  rewrite IH. apply perm_swap.
Qed.

Lemma stable_sort_Permutation l : Permutation (stable_sort comp l) l.
Proof.
  induction l as [|x l IH]; simpl; [done|].
  rewrite insert_sorted_Permutation. by constructor.
Qed.

Lemma stable_sort_length l : length (stable_sort comp l) = length l.
Proof. apply Permutation_length, stable_sort_Permutation. Qed.


Hypothesis comp_asym : forall a b, comp a b = true -> comp b a = false.

Lemma insert_sorted_HdRel a x l :
  in_order comp a x -> HdRel (in_order comp) a l -> HdRel (in_order comp) a (insert_sorted comp x l).
Proof.
  intros Hax Hl. destruct l as [|y l]; simpl; [by constructor|].
  destruct (comp y x); constructor; [by inversion Hl|done].
Qed.

Lemma insert_sorted_Sorted x l :
  Sorted (in_order comp) l -> Sorted (in_order comp) (insert_sorted comp x l).
Proof.
  induction l as [|y l IH]; simpl; intros Hs.
  - by repeat constructor.
  - destruct (comp y x) eqn:Hyx.
    + inversion Hs; subst. constructor; [by apply IH|].
      apply insert_sorted_HdRel; [|done]. by apply comp_asym.
    + constructor; [done|]. by constructor.
Qed.

Lemma stable_sort_Sorted l : Sorted (in_order comp) (stable_sort comp l).
Proof.
  induction l as [|x l IH]; simpl; [constructor|]. by apply insert_sorted_Sorted.
Qed.

(** Stability: the elements of one equivalence class keep their order. *)
Lemma insert_sorted_filter (P : A -> bool) x l :
  (forall y, comp y x = true -> P x = true -> P y = false) ->
  List.filter P (insert_sorted comp x l) = List.filter P (x :: l).
Proof.
  intros HP. induction l as [|y l IH]; simpl; [done|].
  destruct (comp y x) eqn:Hyx; simpl; [|done].
  rewrite IH. simpl. destruct (P x) eqn:Px; [|done].
  by rewrite (HP y Hyx eq_refl).
Qed.

Lemma stable_sort_filter (P : A -> bool) l :
  (forall x y, comp y x = true -> P x = true -> P y = false) ->
  List.filter P (stable_sort comp l) = List.filter P l.
Proof.
  intros HP. induction l as [|x l IH]; simpl; [done|].
  rewrite insert_sorted_filter by (intros; by eapply HP).
  simpl. by rewrite IH.
Qed.
End SortingFacts.

(** The order of [flush] is a strict total order on the keys. *)
Lemma predicate_asym a b :
  RandomSamplingNode.predicate a b = true -> RandomSamplingNode.predicate b a = false.
Proof. unfold RandomSamplingNode.predicate. lia. Qed.

Lemma predicate_in_order a b :
  in_order RandomSamplingNode.predicate a b <->
  timestamp a < timestamp b \/ (timestamp a = timestamp b /\ paramid a <= paramid b).
Proof. unfold in_order, RandomSamplingNode.predicate. lia. Qed.

Lemma u32_le z : 0 <= z -> 0 <= u32 z <= z.
Proof.
  intros Hz. unfold u32. split; [apply Z.mod_pos_bound; lia|].
  apply Z.mod_le; lia.
Qed.

Lemma feed_accepted {T} `{Node T} (s : aku_Sample) (l : list aku_Sample) (n n' : T) :
  Node.put s n = Some (true, n') -> feed (s :: l) n = feed l n'.
Proof. intros Hput. cbn [feed]. by rewrite Hput. Qed.

(** ** Group-by in front of a filter *)

(** C3, as the code has it.  Group-by of width 10 in front of the
    include-set {7}, fed (7,3,1.0), (8,4,9.0), (7,12,2.0), (7,25,3.0) and
    stopped: the sink receives (7,3,1.0), sentinel@10, (7,12,2.0),
    sentinel@20, (7,25,3.0) and then one [complete]. *)
Theorem filter_groupby_scenario :
  Scenario.filter_groupby_received =
    Some [OnPut (float_sample 7 3 1); OnPut (sentinel 10);
          OnPut (float_sample 7 12 2); OnPut (sentinel 20);
          OnPut (float_sample 7 25 3); OnComplete].
Proof. vm_compute. reflexivity. Qed.

(** C3 as stated fails: no sentinel at 30 reaches the sink. *)
Lemma filter_groupby_no_sentinel_30 :
  Scenario.filter_groupby_received <>
    Some [OnPut (float_sample 7 3 1); OnPut (sentinel 10);
          OnPut (float_sample 7 12 2); OnPut (sentinel 20); OnPut (sentinel 30);
          OnPut (float_sample 7 25 3); OnComplete].
Proof. vm_compute. intros [=]. Qed.

(** ** Reservoir sampling *)

Section Reservoir.
Import RandomSamplingNode.

Lemma flush_Recorder (n : RandomSamplingNode.t Recorder) :
  flush n = Some (true, mk (buffer_size_ n) [] (random_ n)
                   (mk_Recorder (events (next_ n)
                                 ++ map OnPut (stable_sort predicate (samples_ n))))).
Proof. unfold flush. by rewrite put_all_Recorder. Qed.


Lemma drawn_bound {T} (n : RandomSamplingNode.t T) :
  0 < Z.of_nat (length (samples_ n)) ->
  0 <= drawn n < Z.of_nat (length (samples_ n)).
Proof.
  intros Hpos. unfold drawn.
  pose proof (Z.mod_pos_bound (Rand_call (random_ n)).1 _ Hpos) as Hr.
  pose proof (u32_le _ (proj1 Hr)). lia.
Qed.

Lemma put_full {T} `{Node T} (sample : aku_Sample) (n : RandomSamplingNode.t T) :
  payload_type sample <> aku_PData.EMPTY ->
  0 < buffer_size_ n ->
  Z.of_nat (length (samples_ n)) = buffer_size_ n ->
  put sample n =
    Some (true, mk (buffer_size_ n) (<[Z.to_nat (drawn n) := sample]> (samples_ n))
                   (Rand_call (random_ n)).2 (next_ n)).
Proof.
  intros Hdata Hk Hfull. unfold put.
  destruct (Z.eqb_spec (payload_type sample) aku_PData.EMPTY) as [|_]; [done|].
  rewrite Hfull, Z.ltb_irrefl.
  destruct (Rand_call (random_ n)) as [r random'] eqn:Hcall.
  destruct (Z.eqb_spec (buffer_size_ n) 0) as [|_]; [lia|].
  pose proof (drawn_bound n) as Hd. unfold drawn in *. rewrite Hcall, Hfull in Hd.
  simpl in Hd. specialize (Hd Hk).
  destruct (Z.ltb_spec (u32 (r mod buffer_size_ n)) (buffer_size_ n)); [|lia].
  unfold drawn. rewrite Hcall, Hfull. done.
Qed.

Lemma put_append {T} `{Node T} (sample : aku_Sample) (n : RandomSamplingNode.t T) :
  payload_type sample <> aku_PData.EMPTY ->
  Z.of_nat (length (samples_ n)) < buffer_size_ n ->
  put sample n =
    Some (true, mk (buffer_size_ n) (samples_ n ++ [sample]) (random_ n) (next_ n)).
Proof.
  intros Hdata Hlt. unfold put.
  destruct (Z.eqb_spec (payload_type sample) aku_PData.EMPTY) as [|_]; [done|].
  by destruct (Z.ltb_spec (Z.of_nat (length (samples_ n))) (buffer_size_ n)); [|lia].
Qed.

End Reservoir.

(** X1.  On an empty sentinel and on [complete] a reservoir over an accepting
    sink hands over its buffer, stable-sorted by (timestamp, paramid), and
    clears it; the sentinel itself is not forwarded, [complete] is. *)
Theorem reservoir_flush_sorted (sample : aku_Sample) (n : RandomSamplingNode.t Recorder) :
  payload_type sample = aku_PData.EMPTY ->
  exists out : list aku_Sample,
    RandomSamplingNode.put sample n =
      Some (true, RandomSamplingNode.mk (RandomSamplingNode.buffer_size_ n) []
                    (RandomSamplingNode.random_ n)
                    (mk_Recorder (events (RandomSamplingNode.next_ n) ++ map OnPut out)))
    /\ RandomSamplingNode.complete n =
         Some (RandomSamplingNode.mk (RandomSamplingNode.buffer_size_ n) []
                 (RandomSamplingNode.random_ n)
                 (mk_Recorder (events (RandomSamplingNode.next_ n)
                               ++ map OnPut out ++ [OnComplete])))
    /\ Permutation out (RandomSamplingNode.samples_ n)
    /\ Sorted (fun a b => timestamp a < timestamp b
                          \/ (timestamp a = timestamp b /\ paramid a <= paramid b)) out
    /\ (forall ts id,
          List.filter (fun s => (timestamp s =? ts) && (paramid s =? id)) out
          = List.filter (fun s => (timestamp s =? ts) && (paramid s =? id))
                        (RandomSamplingNode.samples_ n)).
Proof.
  intros Hempty.
  exists (stable_sort RandomSamplingNode.predicate (RandomSamplingNode.samples_ n)).
  repeat split.
  - unfold RandomSamplingNode.put. rewrite Hempty. simpl. apply flush_Recorder.
  - unfold RandomSamplingNode.complete. rewrite flush_Recorder. simpl.
    by rewrite <- app_assoc.
  - apply stable_sort_Permutation.
  - eapply Sorted_ind with (P := fun l => Sorted _ l);
      [constructor| |apply (stable_sort_Sorted _ predicate_asym)].
    intros a l _ IH Hhd. constructor; [done|].
    destruct Hhd; constructor. by apply predicate_in_order.
  - intros ts id. apply stable_sort_filter.
    intros x y Hlt Hx. unfold RandomSamplingNode.predicate in Hlt. lia.
Qed.

(** The full reservoir of the scenarios flushes its two samples. *)
Lemma reservoir_flush_sorted_witness :
  payload_type (sentinel 10) = aku_PData.EMPTY
  /\ exists out : list aku_Sample,
      RandomSamplingNode.put (sentinel 10) Scenario.full_reservoir =
        Some (true, RandomSamplingNode.mk 2 [] Scenario.random (mk_Recorder (map OnPut out)))
      /\ Permutation out [float_sample 1 5 0; float_sample 2 3 0].
Proof.
  split; [reflexivity|].
  destruct (reservoir_flush_sorted (sentinel 10) Scenario.full_reservoir eq_refl)
    as (out & Hput & _ & Hperm & _).
  exists out. split; [exact Hput|exact Hperm].
Defined.

(** Over a sink that refuses the second sample the flush stops there,
    returns [false] and keeps the sorted buffer. *)
Lemma reservoir_flush_refused :
  RandomSamplingNode.put (sentinel 10) Scenario.refused_reservoir =
    Some (false,
          RandomSamplingNode.mk 2 [float_sample 2 3 0; float_sample 1 5 0] Scenario.random
            (mk_Limited 0 [OnPut (float_sample 2 3 0); OnPut (float_sample 1 5 0)])).
Proof. vm_compute. reflexivity. Qed.



(** C4.  With capacity 0 the first data sample makes [put] take the
    remainder of a division by the empty buffer's size: the session of two
    data samples and [complete] has no defined outcome, where the claim
    promises a flush of min(2, 0) = 0 samples.  With capacity 2 and three
    data samples the flush hands over min(3, 2) = 2 samples in (timestamp,
    paramid) order. *)
Theorem reservoir_zero_capacity_undefined :
  Scenario.reservoir_received 0 [float_sample 1 5 0; float_sample 2 3 0] = None
  /\ Scenario.reservoir_received 2
       [float_sample 1 5 0; float_sample 2 3 0; float_sample 3 7 0]
     = Some [OnPut (float_sample 1 5 0); OnPut (float_sample 3 7 0); OnComplete].
Proof. split; vm_compute; reflexivity. Qed.

(** C10, for a capacity of at least one.  When the buffer holds
    [buffer_size_] samples a data sample is always stored: the drawn index
    is below the capacity, [put] returns [true], the buffer keeps its length
    and contains the sample. *)
Theorem reservoir_full_put_replaces {T} `{Node T}
    (sample : aku_Sample) (n : RandomSamplingNode.t T) :
  payload_type sample <> aku_PData.EMPTY ->
  0 < RandomSamplingNode.buffer_size_ n ->
  Z.of_nat (length (RandomSamplingNode.samples_ n)) = RandomSamplingNode.buffer_size_ n ->
  exists ix : nat,
    ix = Z.to_nat (drawn n)
    /\ drawn n < RandomSamplingNode.buffer_size_ n
    /\ (ix < length (RandomSamplingNode.samples_ n))%nat
    /\ RandomSamplingNode.put sample n =
         Some (true, RandomSamplingNode.mk (RandomSamplingNode.buffer_size_ n)
                       (<[ix := sample]> (RandomSamplingNode.samples_ n))
                       (Rand_call (RandomSamplingNode.random_ n)).2
                       (RandomSamplingNode.next_ n))
    /\ length (<[ix := sample]> (RandomSamplingNode.samples_ n))
       = length (RandomSamplingNode.samples_ n)
    /\ sample ∈ <[ix := sample]> (RandomSamplingNode.samples_ n).
Proof.
  intros Hdata Hk Hfull. exists (Z.to_nat (drawn n)).
  pose proof (drawn_bound n) as Hd. rewrite Hfull in Hd. specialize (Hd Hk).
  assert (Z.to_nat (drawn n) < length (RandomSamplingNode.samples_ n))%nat as Hix by lia.
  repeat split; try lia.
  - by apply put_full.
  - apply length_insert.
  - apply list_elem_of_lookup. exists (Z.to_nat (drawn n)).
    by apply list_lookup_insert_eq.
Qed.

(** The full reservoir of capacity two takes the third sample. *)
Lemma reservoir_full_put_replaces_witness :
  payload_type (float_sample 3 7 0) <> aku_PData.EMPTY
  /\ 0 < RandomSamplingNode.buffer_size_ Scenario.full_reservoir
  /\ exists ix : nat,
      ix = Z.to_nat (drawn Scenario.full_reservoir)
      /\ drawn Scenario.full_reservoir < 2
      /\ (ix < 2)%nat
      /\ RandomSamplingNode.put (float_sample 3 7 0) Scenario.full_reservoir =
           Some (true, RandomSamplingNode.mk 2
                         (<[ix := float_sample 3 7 0]> [float_sample 1 5 0; float_sample 2 3 0])
                         (Rand_call Scenario.random).2 Scenario.sink)
      /\ length (<[ix := float_sample 3 7 0]> [float_sample 1 5 0; float_sample 2 3 0]) = 2%nat
      /\ float_sample 3 7 0 ∈ <[ix := float_sample 3 7 0]> [float_sample 1 5 0; float_sample 2 3 0].
Proof.
  split; [vm_compute; discriminate|]. split; [reflexivity|].
  apply (reservoir_full_put_replaces (float_sample 3 7 0) Scenario.full_reservoir);
    [vm_compute; discriminate|reflexivity|reflexivity].
Defined.

(** C10 as stated fails at capacity 0: the empty buffer holds
    [buffer_size_ = 0] samples and [put] on a data sample divides by its
    size. *)
Lemma reservoir_full_zero_capacity :
  Z.of_nat (length (RandomSamplingNode.samples_
                      (RandomSamplingNode.create 0 Scenario.random Scenario.sink)))
  = RandomSamplingNode.buffer_size_ (RandomSamplingNode.create 0 Scenario.random Scenario.sink)
  /\ RandomSamplingNode.put (float_sample 1 5 0)
       (RandomSamplingNode.create 0 Scenario.random Scenario.sink) = None.
Proof. split; vm_compute; reflexivity. Qed.

(** ** Sliding windows *)

Section Window.
Context {S : Type} `{State S}.

Lemma average_loop_Recorder (ts : aku_Timestamp) (l : list (Z * S))
    (counters : gmap Z S) (r : Recorder) :
  (forall id state, (id, state) ∈ l -> ready state = true -> is_Some (value state)) ->
  SlidingWindow.average_loop ts l counters r =
    Some (true, foldl visit counters l,
          mk_Recorder (events r ++ map OnPut (omap (synthesized ts) l))).
Proof.
  revert counters r. induction l as [|[id state] l IH]; intros counters [ev] Hvalue.
  - simpl. by rewrite app_nil_r.
  - cbn [SlidingWindow.average_loop foldl omap]. unfold visit at 2, synthesized at 1.
    unfold after_sentinel. simpl.
    destruct (ready state) eqn:Hready.
    + destruct (Hvalue id state) as [[v state'] Hv]; [by left|done|].
      rewrite Hv. simpl. rewrite IH by (intros; eapply Hvalue; [by right|done]).
      simpl. by rewrite <- app_assoc.
    + rewrite IH by (intros; eapply Hvalue; [by right|done]). done.
Qed.

Lemma foldl_visit_lookup (l : list (Z * S)) (counters : gmap Z S) (i : Z) :
  NoDup l.*1 ->
  foldl visit counters l !! i =
    match (list_to_map l : gmap Z S) !! i with
    | Some state => if ready state then Some (after_sentinel state) else counters !! i
    | None => counters !! i
    end.
Proof.
  revert counters. induction l as [|[id state] l IH]; intros counters Hdup; [done|].
  rewrite fmap_cons in Hdup. apply NoDup_cons in Hdup as [Hid Hdup].
  cbn [foldl list_to_map foldr]. rewrite IH by done. simpl.
  destruct (decide (i = id)) as [->|Hne].
  - rewrite lookup_insert_eq.
    rewrite (not_elem_of_list_to_map_1 l id) by done.
    unfold visit. simpl. destruct (ready state); [by rewrite lookup_insert_eq|done].
  - rewrite lookup_insert_ne by done.
    assert (visit counters (id, state) !! i = counters !! i) as ->; [|done].
    unfold visit. simpl. destruct (ready state); [by rewrite lookup_insert_ne|done].
Qed.

Lemma foldl_visit_map (counters : gmap Z S) :
  foldl visit counters (map_to_list counters) = after_sentinel <$> counters.
Proof.
  apply map_eq. intros i.
  rewrite foldl_visit_lookup by apply NoDup_fst_map_to_list.
  rewrite list_to_map_to_list, lookup_fmap.
  destruct (counters !! i) as [state|] eqn:Hi; simpl; [|done].
  unfold after_sentinel. by destruct (ready state).
Qed.

(** X3.  On an empty sentinel at [t] a sliding window over an accepting sink
    emits one synthetic sample stamped [t] per ready series, in map order,
    resets those states, and then forwards the static [EMPTY_SAMPLE]. *)
Theorem sliding_window_sentinel (sample : aku_Sample) (n : SlidingWindow.t S Recorder) :
  payload_type sample = aku_PData.EMPTY ->
  (forall id state, SlidingWindow.counters_ n !! id = Some state ->
     ready state = true -> is_Some (value state)) ->
  SlidingWindow.put sample n =
    Some (true,
          SlidingWindow.mk
            (mk_Recorder
               (events (SlidingWindow.next_ n)
                ++ map OnPut (omap (synthesized (timestamp sample))
                                   (map_to_list (SlidingWindow.counters_ n)))
                ++ [OnPut EMPTY_SAMPLE]))
            (after_sentinel <$> SlidingWindow.counters_ n)).
Proof.
  intros Hempty Hvalue. unfold SlidingWindow.put, SlidingWindow.average_samples.
  rewrite Hempty. simpl.
  rewrite average_loop_Recorder
    by (intros id state Hin Hready; apply (Hvalue id state);
        [by apply elem_of_map_to_list|done]).
  simpl. by rewrite foldl_visit_map, <- app_assoc.
Qed.
End Window.

(** A moving average with the sum 6 of two samples emits their mean. *)
Lemma sliding_window_sentinel_witness :
  payload_type (sentinel 10) = aku_PData.EMPTY
  /\ SlidingWindow.put (sentinel 10) Scenario.loaded_average =
       Some (true,
             SlidingWindow.mk
               (mk_Recorder [OnPut (float_sample 1 10 3); OnPut EMPTY_SAMPLE])
               {[ 1 := MovingAverageCounter.mk 0 0 ]}).
Proof.
  split; [reflexivity|].
  rewrite (sliding_window_sentinel (sentinel 10) Scenario.loaded_average eq_refl).
  - vm_compute. reflexivity.
  - intros id state _ _. by eexists.
Defined.

(** C1.  A sliding-window aggregator that receives the empty sentinel at
    [t] emits one synthetic sample per ready series, stamped [t], and then
    forwards an empty sentinel -- but the sentinel it forwards is the static
    [EMPTY_SAMPLE], whose timestamp is 0, not the sentinel it received: in
    scenario 2 the sink sees the two averages (in the order the map yields
    them) and then a sentinel at 0, whatever [t] was (10 in the
    specification). *)
Theorem moving_average_sentinel_loses_timestamp (t : aku_Timestamp) :
  Scenario.moving_average_received t =
    Some [OnPut (float_sample 2 t 10); OnPut (float_sample 1 t 3); OnPut (sentinel 0)].
Proof. vm_compute. reflexivity. Qed.

(** C7.  A sliding window does not ignore blob samples: the blob is handed
    to [State::add] like any other data sample.  A fresh moving average that
    receives a blob of series 1 holds a counter for series 1 with [num = 1]
    whose sum is the blob's pointer read as a [double]; and a bucket with
    the float 2.0 and that blob averages to 1.0, not 2.0. *)
Theorem moving_average_counts_blob :
  SlidingWindow.put Scenario.blob_sample (SlidingWindow.create Scenario.sink)
  = Some (true, SlidingWindow.mk Scenario.sink
                  {[ 1 := MovingAverageCounter.mk (Double.of_bits 140737488347136) 1 ]})
  /\ Scenario.blob_average_received = Some [OnPut (float_sample 1 10 1); OnPut (sentinel 0)].
Proof. split; vm_compute; reflexivity. Qed.

(** ** Space-Saving *)

Section SpaceSaverFacts.
Import SpaceSaver.
Context {T : Type} `{Indeterminate} `{Node T}.

(** The entry the scan settles on is one of the entries scanned. *)
Lemma min_scan_victim (l : list (Z * Item.t)) (min_iter : option Z) (min : Z)
    (victim : Z) (min' : Z) :
  min_scan l min_iter min = Some (Some victim, min') ->
  min_iter = Some victim \/ victim ∈ l.*1.
Proof.
  revert min_iter min. induction l as [|[id item] l IH]; intros min_iter min; simpl.
  - intros [= -> _]. by left.
  - destruct (Item.count item <? Double.of_size_t min)%float.
    + destruct (Double.to_size_t (Item.count item)) as [m|]; simpl; [|done].
      intros Hscan. right. rewrite ?fmap_cons; simpl; apply elem_of_cons.
      destruct (IH _ _ Hscan) as [[= ->]|Hin]; auto.
    + intros Hscan. destruct (IH _ _ Hscan) as [->|Hin]; [by left|right].
      rewrite ?fmap_cons; simpl; apply elem_of_cons. auto.
Qed.

Lemma min_scan_victim_lookup (counters : gmap Z Item.t) (victim min' : Z) :
  min_scan (map_to_list counters) None SIZE_MAX = Some (Some victim, min') ->
  is_Some (counters !! victim).
Proof.
  intros Hscan. destruct (min_scan_victim _ _ _ _ _ Hscan) as [[=]|Hin].
  apply list_elem_of_fmap in Hin as ([id item] & -> & Hin).
  apply elem_of_map_to_list in Hin. by eexists.
Qed.


Lemma count_bounded (n n' : SpaceSaver.t T) ok :
  bounded n -> count n = Some (ok, n') -> M n' = M n /\ bounded n'.
Proof.
  intros [HM Hsize]. unfold count.
  destruct (put_all _ _) as [[[] next']|]; simpl; intros [= <- <-]; simpl;
    repeat split; try done; rewrite ?map_size_empty; lia.
Qed.

Lemma put_bounded (weighted : bool) (sample : aku_Sample) (n n' : SpaceSaver.t T) ok :
  bounded n -> put weighted sample n = Some (ok, n') -> M n' = M n /\ bounded n'.
Proof.
  intros Hb. unfold put.
  destruct (payload_type sample =? aku_PData.EMPTY); [by apply count_bounded|].
  destruct (weighted && _); [by intros [= <- <-]|].
  destruct Hb as [HM Hsize].
  destruct (counters_ n !! paramid sample) as [item|] eqn:Hid.
  - intros [= <- <-]; unfold bounded; simpl. repeat split; try done.
    rewrite map_size_insert_Some by (by eexists). done.
  - destruct (Z.eqb_spec (Z.of_nat (size (counters_ n))) (M n)) as [Hfull|Hroom].
    + destruct (min_scan _ _ _) as [[[victim|] min]|] eqn:Hscan; simpl; try done.
      intros [= <- <-]; unfold bounded; simpl. repeat split; try done.
      apply min_scan_victim_lookup in Hscan.
      rewrite map_size_insert_None by (apply lookup_delete_None; auto).
      rewrite map_size_delete_Some by done.
      destruct Hscan as [item Hitem].
      assert (size (counters_ n) <> 0%nat) as Hne.
      { apply map_size_non_empty_iff. intros Hempty.
        by rewrite Hempty, lookup_empty in Hitem. }
      lia.
    + simpl. intros [= <- <-]; unfold bounded; simpl. repeat split; try done.
      rewrite map_size_insert_None by done. lia.
Qed.
End SpaceSaverFacts.

Section SpaceSaverMore.
Import SpaceSaver.
Context {T : Type} `{Indeterminate} `{Node T}.

Lemma ceil_to_size_t_nonneg (x : float) (m : Z) :
  Double.ceil_to_size_t x = Some m -> 0 <= m.
Proof.
  unfold Double.ceil_to_size_t. destruct (Double.ceil x) as [c|]; simpl; [|done].
  destruct (Z.leb_spec 0 c); simpl; [|done].
  destruct (c <=? SIZE_MAX); [|done]. by intros [= <-].
Qed.

Lemma create_bounded (error portion : float) (next : T) (n : SpaceSaver.t T) :
  create error portion next = Some n ->
  Double.ceil_to_size_t (1 / error) = Some (M n) /\ bounded n.
Proof.
  unfold create.
  destruct (Double.ceil_to_size_t (1 / error)) as [m|] eqn:Hm; simpl; [|done].
  destruct (_ && _); [|done]. intros [= <-]; unfold bounded; simpl.
  rewrite map_size_empty. apply ceil_to_size_t_nonneg in Hm. auto with lia.
Qed.

Lemma complete_bounded (n n' : SpaceSaver.t T) :
  bounded n -> complete n = Some n' -> M n' = M n /\ bounded n'.
Proof.
  intros Hb. unfold complete.
  destruct (count n) as [[ok n1]|] eqn:Hcount; simpl; [|done].
  destruct (count_bounded _ _ _ Hb Hcount) as [HM Hb1].
  destruct (Node.complete (next_ n1)); simpl; [|done].
  by intros [= <-].
Qed.

Lemma step_bounded (weighted : bool) (n n' : SpaceSaver.t T) :
  SpaceSaverRun.step weighted n n' -> bounded n -> M n' = M n /\ bounded n'.
Proof.
  intros [sample n0 ok n0' Hput|n0 n0' Hcomplete|status n0] Hb.
  - by eapply put_bounded.
  - by eapply complete_bounded.
  - done.
Qed.

Lemma reachable_bounded (weighted : bool) (error portion : float) (next : T)
    (n : SpaceSaver.t T) :
  SpaceSaverRun.reachable weighted error portion next n ->
  Double.ceil_to_size_t (1 / error) = Some (M n) /\ bounded n.
Proof.
  intros (n0 & Hcreate & Hrun). apply create_bounded in Hcreate.
  revert n Hrun.
  apply (rtc_ind_r (fun n => Double.ceil_to_size_t (1 / error) = Some (M n) /\ bounded n));
    [done|].
  intros n1 n2 _ Hstep [HM Hb].
  destruct (step_bounded _ _ _ Hstep Hb) as [-> Hb']. done.
Qed.


(** X4.  A data sample that a Space-Saving node counts is accepted, adds its
    weight to [N], and changes the map in one of three ways: it increments
    the entry of its series, it is inserted into a map with room, or it
    replaces one entry of a full map. *)
Theorem space_saver_put_cases (weighted : bool) (sample : aku_Sample)
    (n n' : SpaceSaver.t T) (ok : bool) :
  bounded n ->
  payload_type sample <> aku_PData.EMPTY ->
  (weighted = true -> Z.land (payload_type sample) aku_PData.FLOAT_BIT <> 0) ->
  put weighted sample n = Some (ok, n') ->
  let weight := if weighted then payload_float64 sample else 1%float in
  ok = true
  /\ N n' = (N n + weight)%float
  /\ M n' = M n
  /\ put_case weight (paramid sample) (counters_ n) (counters_ n') (M n).
Proof.
  intros [HM Hsize] Hdata Hfloat. unfold put.
  destruct (Z.eqb_spec (payload_type sample) aku_PData.EMPTY) as [|_]; [done|].
  destruct (weighted && _) eqn:Hskip.
  { apply andb_prop in Hskip as [-> Hzero]. apply Z.eqb_eq in Hzero. by destruct Hfloat. }
  destruct (counters_ n !! paramid sample) as [item|] eqn:Hid.
  - intros [= <- <-]. repeat split; try done. by eapply case_increment.
  - destruct (Z.eqb_spec (Z.of_nat (size (counters_ n))) (M n)) as [Hfull|Hroom].
    + destruct (min_scan _ _ _) as [[[victim|] min]|] eqn:Hscan; simpl; try done.
      intros [= <- <-]. repeat split; try done. simpl.
      destruct (min_scan_victim_lookup _ _ _ Hscan) as [item Hitem].
      eapply (case_evict _ _ _ _ _ victim item); try done.
      * by rewrite lookup_insert_eq.
      * rewrite delete_insert_eq. apply delete_id, lookup_delete_None. auto.
    + simpl. intros [= <- <-]. repeat split; try done. simpl.
      apply case_insert; try done. lia.
Qed.
End SpaceSaverMore.

(** The first data sample of a node of capacity two is inserted. *)
Lemma space_saver_put_cases_witness :
  bounded Scenario.fresh_frequent_items
  /\ SpaceSaver.N Scenario.after_one_put = (SpaceSaver.N Scenario.fresh_frequent_items + 1)%float
  /\ put_case 1 1 (SpaceSaver.counters_ Scenario.fresh_frequent_items)
       (SpaceSaver.counters_ Scenario.after_one_put) 2.
Proof.
  assert (bounded Scenario.fresh_frequent_items) as Hb.
  { split; [vm_compute; discriminate|]. vm_compute. discriminate. }
  split; [exact Hb|].
  destruct (@space_saver_put_cases Recorder Fixture.junk _ false (float_sample 1 1 0)
              Scenario.fresh_frequent_items Scenario.after_one_put true Hb)
    as (_ & HN & _ & Hcase); [vm_compute; discriminate|discriminate|vm_compute; reflexivity|].
  split; [exact HN|exact Hcase].
Defined.

(** C8.  Every state a Space-Saving node reaches from its constructor by
    [put], [complete] and [set_error] holds at most [M] counters, where [M]
    is the [size_t] of [ceil(1.0 / error)]. *)
Theorem space_saver_size_bounded {T} `{Indeterminate} `{Node T}
    (weighted : bool) (error portion : float) (next : T) (n : SpaceSaver.t T) :
  SpaceSaverRun.reachable weighted error portion next n ->
  Double.ceil_to_size_t (1 / error) = Some (SpaceSaver.M n)
  /\ Z.of_nat (size (SpaceSaver.counters_ n)) <= SpaceSaver.M n.
Proof.
  intros Hreach. destruct (reachable_bounded _ _ _ _ _ Hreach) as [HM [_ Hsize]]. done.
Qed.

(** The bound at the state after the first data sample of a node with
    error 0.5. *)
Lemma space_saver_size_bounded_witness :
  Double.ceil_to_size_t (1 / 0.5) = Some (SpaceSaver.M Scenario.after_one_put)
  /\ Z.of_nat (size (SpaceSaver.counters_ Scenario.after_one_put))
     <= SpaceSaver.M Scenario.after_one_put.
Proof.
  apply (@space_saver_size_bounded Recorder Fixture.junk _ false 0.5 0.5 Scenario.sink).
  exists (SpaceSaver.mk Scenario.sink ∅ 0 2 0.5). split; [vm_compute; reflexivity|].
  eapply rtc_l; [|apply rtc_refl].
  apply (SpaceSaverRun.step_put false (float_sample 1 1 0) _ true).
  vm_compute. reflexivity.
Defined.

Section Count.
Import SpaceSaver.
Context `{Indeterminate}.

Lemma by_count_desc_asym a b : by_count_desc a b = true -> by_count_desc b a = false.
Proof. apply ltb_asym. Qed.

Lemma elem_of_candidates (n : SpaceSaver.t Recorder) (s : aku_Sample) :
  s ∈ candidates n <->
  exists id item, counters_ n !! id = Some item
    /\ (N n * P n <? Item.count item - Item.error item)%float = true
    /\ s = report id item.
Proof.
  unfold candidates. rewrite list_elem_of_fmap. split.
  - intros ([id item] & -> & Hin). apply list_elem_of_filter in Hin as [Hsup Hin].
    apply elem_of_map_to_list in Hin. by exists id, item.
  - intros (id & item & Hid & Hsup & ->). exists (id, item). split; [done|].
    apply list_elem_of_filter. split; [done|]. by apply elem_of_map_to_list.
Qed.


Lemma count_Recorder (n : SpaceSaver.t Recorder) :
  count n = Some (true, flushed (std_sort by_count_desc (candidates n)) n).
Proof. unfold count. by rewrite put_all_Recorder. Qed.

End Count.

(** X30.  On an empty sentinel and on [complete] a Space-Saving node hands
    an accepting sink one sample per entry with
    [N * P < count - error] (paramid, [PARAMID_BIT | FLOAT_BIT], value =
    count), in descending order of count, and clears the counter map; the
    cumulative weight [N] keeps its value. *)
Theorem space_saver_count_spec `{Indeterminate} (n : SpaceSaver.t Recorder) :
  exists out : list aku_Sample,
    (SpaceSaver.count n = Some (true, flushed out n)
     /\ (forall weighted sample, payload_type sample = aku_PData.EMPTY ->
           SpaceSaver.put weighted sample n = Some (true, flushed out n))
     /\ SpaceSaver.complete n =
          Some (SpaceSaver.mk
                  (mk_Recorder (events (SpaceSaver.next_ n) ++ map OnPut out ++ [OnComplete]))
                  ∅ (SpaceSaver.N n) (SpaceSaver.M n) (SpaceSaver.P n)))
    /\ (forall s, s ∈ out <->
          exists id item, SpaceSaver.counters_ n !! id = Some item
            /\ (SpaceSaver.N n * SpaceSaver.P n
                <? SpaceSaver.Item.count item - SpaceSaver.Item.error item)%float = true
            /\ paramid s = id
            /\ payload_type s = Z.lor aku_PData.PARAMID_BIT aku_PData.FLOAT_BIT
            /\ aku_PData.value (payload s) = aku_PData.Float64 (SpaceSaver.Item.count item)
            /\ timestamp s = timestamp indeterminate_sample)
    /\ Permutation out (SpaceSaver.candidates n)
    /\ Sorted (fun a b => (payload_float64 a <? payload_float64 b)%float = false) out.
Proof.
  exists (std_sort SpaceSaver.by_count_desc (SpaceSaver.candidates n)). repeat split.
  - apply count_Recorder.
  - intros weighted sample Hempty. unfold SpaceSaver.put. rewrite Hempty. simpl.
    apply count_Recorder.
  - unfold SpaceSaver.complete. rewrite count_Recorder. simpl. by rewrite <- app_assoc.
  - intros Hin.
    rewrite (stable_sort_Permutation SpaceSaver.by_count_desc (SpaceSaver.candidates n)) in Hin.
    apply elem_of_candidates in Hin as (id & item & ? & ? & ->). by exists id, item.
  - intros (id & item & Hid & Hsup & Hp & Hty & Hv & Hts).
    rewrite (stable_sort_Permutation SpaceSaver.by_count_desc (SpaceSaver.candidates n)).
    apply elem_of_candidates. exists id, item. repeat split; try done.
    destruct s as [p t [ty v]]. unfold SpaceSaver.report, payload_type in *.
    simpl in *. by subst.
  - apply stable_sort_Permutation.
  - apply (stable_sort_Sorted SpaceSaver.by_count_desc by_count_desc_asym).
Qed.

(** C2.  [count] clears the counter map but not the cumulative weight
    [N], where the claim has both cleared.  After the first bucket (ten
    samples of series 1 and a sentinel) series 1 is reported, the map is
    empty and [N] is 10, not 0.  The second bucket (four samples of series 2 and a sentinel) is
    then tested against the threshold [14 * 0.5]: nothing is reported,
    although series 2 is the whole bucket and the same bucket on a fresh
    node, where [N] starts at 0, is reported. *)
Theorem space_saver_threshold_carries_over :
  Scenario.frequent_items 0.5 Buckets.first = Some (∅, 10%float)
  /\ Buckets.frequent_items_session Buckets.first
     = Some ([OnPut (Buckets.reported 1 10)], 10%float)
  /\ Buckets.frequent_items_session (Buckets.first ++ Buckets.second)
     = Some ([OnPut (Buckets.reported 1 10)], 14%float)
  /\ Buckets.frequent_items_session Buckets.second
     = Some ([OnPut (Buckets.reported 2 4)], 4%float).
Proof. repeat split; vm_compute; reflexivity. Qed.

(** C5.  Heavy hitters with one counter: after (1, 2.5) the sample (2, 1.0)
    evicts series 1, whose count is 2.5, but the new entry gets count
    2 + 1 = 3 and error 2: [min] is a [size_t], so the evicted count is
    truncated.  The claim has count 3.5 and error 2.5.  The cumulative
    weight is 3.5 as claimed. *)
Theorem heavy_hitters_truncates_min_count :
  Scenario.heavy_hitters 1 [float_sample 1 1 2.5; float_sample 2 2 1]
  = Some ({[ 2 := SpaceSaver.Item.mk 3 2 ]}, 3.5%float).
Proof. vm_compute. reflexivity. Qed.

(** The truncation also misleads the scan: when the loop visits an entry
    with count 2.5 before one with count 2.25, it keeps the first as the
    minimum, because 2.25 is not below the truncated 2, and that entry is
    the one erased.  (Which entry the loop visits first is up to the
    map.) *)
Lemma min_scan_keeps_larger_count :
  SpaceSaver.min_scan [(2, SpaceSaver.Item.mk 2.5 0); (1, SpaceSaver.Item.mk 2.25 0)]
    None SIZE_MAX
  = Some (Some 2, 2).
Proof. vm_compute. reflexivity. Qed.

(** ** The anomaly detector *)

Lemma land_lor_same (a b : Z) : Z.land (Z.lor a b) b = b.
Proof.
  apply Z.bits_inj'. intros i _. rewrite Z.land_spec, Z.lor_spec.
  by destruct (Z.testbit a i), (Z.testbit b i).
Qed.

Section Anomaly.
Context {D T : Type} `{AnomalyDetectorIface D} `{Node T}.
Import AnomalyDetector.

(** C6.  A data sample with [FLOAT_BIT]: a value below zero makes [put]
    call [set_error(AKU_EANOMALY_NEG_VAL)] on the successor and return
    [false]; otherwise the value is added to the detector, and the sample is
    forwarded with [URGENT] added to its payload type if the detector then
    holds the series for an anomaly candidate, and dropped, [put] returning
    [true], if not. *)
Theorem anomaly_detector_put (sample : aku_Sample) (n : AnomalyDetector.t D T) :
  payload_type sample <> aku_PData.EMPTY ->
  Z.land (payload_type sample) aku_PData.FLOAT_BIT <> 0 ->
  let v := payload_float64 sample in
  let detector := detector_add (paramid sample) v (detector_ n) in
  let anomaly := with_type (Z.lor (payload_type sample) aku_PData.URGENT) sample in
  ((v <? 0)%float = true ->
     put sample n =
       Some (false, mk (Node.set_error AKU_EANOMALY_NEG_VAL (next_ n)) (detector_ n)))
  /\ ((v <? 0)%float = false ->
      is_anomaly_candidate (paramid sample) detector = true ->
      put sample n =
        ('(ok, next') ← Node.put anomaly (next_ n); Some (ok, mk next' detector)))
  /\ ((v <? 0)%float = false ->
      is_anomaly_candidate (paramid sample) detector = false ->
      put sample n = Some (true, mk (next_ n) detector))
  /\ Z.land (payload_type anomaly) aku_PData.URGENT = aku_PData.URGENT
  /\ paramid anomaly = paramid sample
  /\ timestamp anomaly = timestamp sample
  /\ aku_PData.value (payload anomaly) = aku_PData.value (payload sample).
Proof.
  intros Hdata Hfloat v detector anomaly. unfold put.
  destruct (Z.eqb_spec (payload_type sample) aku_PData.EMPTY) as [|_]; [done|].
  destruct (Z.eqb_spec (Z.land (payload_type sample) aku_PData.FLOAT_BIT) 0) as [|_];
    [done|]. simpl. fold v. fold detector. fold anomaly.
  repeat split; try done.
  - by intros ->.
  - by intros -> ->.
  - by intros -> ->.
  - apply land_lor_same.
Qed.
End Anomaly.

(** A negative float sample makes the node of the fixture report
    [AKU_EANOMALY_NEG_VAL] to the sink and return [false]. *)
Lemma anomaly_detector_put_witness :
  payload_type (float_sample 1 5 (-1)) <> aku_PData.EMPTY
  /\ Z.land (payload_type (float_sample 1 5 (-1))) aku_PData.FLOAT_BIT <> 0
  /\ AnomalyDetector.put (float_sample 1 5 (-1)) Scenario.anomaly_node
     = Some (false, AnomalyDetector.mk (mk_Recorder [OnError AKU_EANOMALY_NEG_VAL])
                      (Fixture.mk_Threshold 100 ∅)).
Proof.
  assert (payload_type (float_sample 1 5 (-1)) <> aku_PData.EMPTY) as Hdata
    by (vm_compute; discriminate).
  assert (Z.land (payload_type (float_sample 1 5 (-1))) aku_PData.FLOAT_BIT <> 0) as Hfloat
    by (vm_compute; discriminate).
  split; [exact Hdata|]. split; [exact Hfloat|].
  exact (proj1 (anomaly_detector_put (float_sample 1 5 (-1)) Scenario.anomaly_node
                  Hdata Hfloat) eq_refl).
Defined.

(** ** The node builder *)

Section Builder.
Context {T : Type} `{Conversions} `{Indeterminate} `{Node T} `{FreeStore}.
Import NodeBuilder Malformed.




End Builder.

Section BuilderThrows.
Context {T : Type} `{Conversions} `{Indeterminate} `{Node T} `{FreeStore}.
Import NodeBuilder Malformed.

(** X5.  What [make_sampler] can raise: [NodeException] tagged
    [Node::RandomSampler]; for an anomaly-detector description also
    [QueryParserError] or the string literal; and for a reservoir
    description with a size that parses also what
    [samples_.reserve(buffer_size)] throws in the node's constructor,
    [std::length_error] or [std::bad_alloc], which no handler catches. *)
Lemma make_sampler_throws (pt : ptree) (random : Rand) (next : T) (e : Exception) :
  make_sampler pt random next = Throws e ->
  (exists msg, e = NodeException Node.RandomSampler msg)
  \/ (named "anomaly-detector" pt
      /\ (e = QueryParserError "Unknown forecasting method"
          \/ e = thrown_literal "Not implemented"))
  \/ (named "reservoir" pt
      /\ exists size nsize,
           Ptree.find "size" pt = Some size
           /\ lexical_cast_uint32 size = Some nsize
           /\ ((vector_reserve (u32 nsize) = Some length_error /\ e = std_length_error)
               \/ (vector_reserve (u32 nsize) = Some bad_alloc /\ e = std_bad_alloc))).
Proof.
  unfold make_sampler, make_sampler_body, parse_anomaly_detector_type,
    Ptree.get, Ptree.get_string, lexical_cast, unknown_algorithm, of_option, named,
    RandomSamplingNode.construct.
  destruct (Ptree.find "name" pt) as [name|]; simpl; [|intros [= <-]; eauto].
  destruct (String.eqb_spec name "reservoir") as [->|_].
  { destruct (Ptree.find "size" pt) as [size|]; simpl; [|intros [= <-]; eauto].
    destruct (lexical_cast_uint32 size) as [nsize|] eqn:Hcast; simpl;
      [|intros [= <-]; eauto].
    destruct (vector_reserve (u32 nsize)) as [[]|] eqn:Hreserve; simpl; [| |done].
    - intros [= <-]. right. right. split; [done|]. exists size, nsize. auto.
    - intros [= <-]. right. right. split; [done|]. exists size, nsize. auto. }
  destruct (String.eqb_spec name "moving-average") as [->|_]; [done|].
  destruct (String.eqb_spec name "moving-median") as [->|_]; [done|].
  destruct (String.eqb_spec name "frequent-items") as [->|_].
  { unfold mbind, Outcome_bind.
    repeat (case_match; simpl in *; simplify_eq; try (by eauto)); intros; simplify_eq; eauto. }
  destruct (String.eqb_spec name "heavy-hitters") as [->|_].
  { unfold mbind, Outcome_bind.
    repeat (case_match; simpl in *; simplify_eq; try (by eauto)); intros; simplify_eq; eauto. }
  destruct (String.eqb_spec name "anomaly-detector") as [->|_]; [|intros [= <-]; eauto].
  unfold mbind, Outcome_bind.
  repeat (case_match; simpl in *; simplify_eq; try (by eauto)); intros; simplify_eq; eauto.
Qed.
End BuilderThrows.

Section BuilderExamples.
#[local] Existing Instance Fixture.free_store.

(** A reservoir description that asks for [2^32 - 1] samples: the free
    store of the examples has no room, and [std::bad_alloc] leaves
    [make_sampler]. *)
Lemma make_sampler_throws_witness :
  NodeBuilder.make_sampler (H := Fixture.conversions)
    [("name", "reservoir"); ("size", "4294967295")]%string Scenario.random Scenario.sink
  = Throws std_bad_alloc
  /\ Malformed.named "reservoir" [("name", "reservoir"); ("size", "4294967295")]%string
  /\ vector_reserve (u32 4294967295) = Some bad_alloc.
Proof.
  assert (NodeBuilder.make_sampler (H := Fixture.conversions)
            [("name", "reservoir"); ("size", "4294967295")]%string
            Scenario.random Scenario.sink
          = Throws std_bad_alloc) as Hthrow
    by (vm_compute; reflexivity).
  split; [exact Hthrow|].
  destruct (make_sampler_throws (H := Fixture.conversions) _ Scenario.random Scenario.sink
              _ Hthrow) as [[msg Hmsg]|[[_ [Herr|Herr]]|[Hname _]]];
    try discriminate.
  split; [exact Hname|]. vm_compute. reflexivity.
Defined.


End BuilderExamples.

(** * Further properties *)

(** ** Filters *)

Lemma filter_put_Recorder (op : aku_ParamId -> bool) (s : aku_Sample) (r : Recorder) :
  Node.put s (FilterByIdNode.mk op r) =
    Some (true, FilterByIdNode.mk op
                  (mk_Recorder (events r ++ map OnPut (List.filter (passes op) [s])))).
Proof.
  destruct r as [ev]. cbn. unfold FilterByIdNode.put, passes, is_sentinel. simpl.
  destruct (payload_type s =? aku_PData.EMPTY); simpl; [done|].
  destruct (op (paramid s)); simpl; [done|]. by rewrite app_nil_r.
Qed.

Lemma filter_feed_Recorder (op : aku_ParamId -> bool) (l : list aku_Sample) (r : Recorder) :
  feed l (FilterByIdNode.mk op r) =
    Some (FilterByIdNode.mk op
            (mk_Recorder (events r ++ map OnPut (List.filter (passes op) l)))).
Proof.
  revert r. induction l as [|s l IH]; intros r.
  - destruct r. simpl. by rewrite app_nil_r.
  - cbn [feed]. rewrite filter_put_Recorder. cbn [mbind option_bind].
    rewrite IH. cbn [events]. do 3 f_equal.
    rewrite <- app_assoc, <- map_app. do 2 f_equal.
    simpl. by destruct (passes op s).
Qed.

Lemma listed_list_to_set (ids : list aku_ParamId) (id : aku_ParamId) :
  bool_decide (id ∈ (list_to_set ids : gset Z)) = listed ids id.
Proof. unfold listed. apply bool_decide_ext. by rewrite elem_of_list_to_set. Qed.

Lemma filter_passes_ext (op op' : aku_ParamId -> bool) (l : list aku_Sample) :
  (forall id, op id = op' id) -> List.filter (passes op) l = List.filter (passes op') l.
Proof.
  intros Hop. apply List.filter_ext. intros s. unfold passes. by rewrite Hop.
Qed.

Lemma make_filter_by_id_list_feed (ids : list aku_ParamId) (l : list aku_Sample)
    (r : Recorder) :
  feed l (NodeBuilder.make_filter_by_id_list ids r) =
    Some (NodeBuilder.make_filter_by_id_list ids
            (mk_Recorder (events r ++ map OnPut (List.filter (passes (listed ids)) l)))).
Proof.
  unfold NodeBuilder.make_filter_by_id_list. rewrite filter_feed_Recorder.
  do 5 f_equal. apply filter_passes_ext. intros i. apply listed_list_to_set.
Qed.

Lemma make_filter_out_by_id_list_feed (ids : list aku_ParamId) (l : list aku_Sample)
    (r : Recorder) :
  feed l (NodeBuilder.make_filter_out_by_id_list ids r) =
    Some (NodeBuilder.make_filter_out_by_id_list ids
            (mk_Recorder
               (events r
                ++ map OnPut (List.filter (passes (fun i => negb (listed ids i))) l)))).
Proof.
  unfold NodeBuilder.make_filter_out_by_id_list. rewrite filter_feed_Recorder.
  do 5 f_equal. apply filter_passes_ext. intros i. rewrite <- listed_list_to_set.
  apply bool_decide_not.
Qed.

Lemma filter_feed {T} `{Node T} (op : aku_ParamId -> bool) (l : list aku_Sample) (next : T) :
  feed l (FilterByIdNode.mk op next)
  = FilterByIdNode.mk op <$> feed (List.filter (passes op) l) next.
Proof.
  revert next. induction l as [|s l IH]; intros next; [done|].
  cbn [feed List.filter]. cbn [Node.put FilterByIdNode.node].
  unfold FilterByIdNode.put, passes, is_sentinel.
  cbn [FilterByIdNode.op_ FilterByIdNode.next_].
  destruct (payload_type s =? aku_PData.EMPTY); simpl.
  - destruct (Node.put s next) as [[[] next']|]; simpl; [apply IH|done|done].
  - destruct (op (paramid s)); simpl; [|apply IH].
    destruct (Node.put s next) as [[[] next']|]; simpl; [apply IH|done|done].
Qed.

(** X6.  A filter is transparent to its successor: feeding it a stream
    is feeding the successor, in the same order, the empty sentinels and the
    data samples whose id satisfies the predicate.  This holds for every
    successor, also one that stops the producer or whose behaviour is
    undefined; the filter itself accepts what it drops, and passes
    [complete] on. *)
Theorem filter_forwards_matching {T} `{Node T} (op : aku_ParamId -> bool)
    (l : list aku_Sample) (next : T) :
  feed l (FilterByIdNode.mk op next)
  = FilterByIdNode.mk op <$> feed (List.filter (passes op) l) next
  /\ run l (FilterByIdNode.mk op next)
     = FilterByIdNode.mk op <$> run (List.filter (passes op) l) next.
Proof.
  split; [apply filter_feed|]. unfold run. rewrite filter_feed.
  destruct (feed (List.filter (passes op) l) next) as [next'|]; [|done].
  cbn. unfold FilterByIdNode.complete. cbn. by destruct (Node.complete next').
Qed.

(** X7.  The three filter factories over an accepting sink: the
    include-list filter hands on the sentinels and the data samples whose id
    occurs in the vector (repetitions and order in the vector do not
    matter), the exclude-list filter the sentinels and the data samples
    whose id does not occur, and the single-id filter does what the
    include-list filter of the one id does. *)
Theorem id_list_filters_select (ids : list aku_ParamId) (id : aku_ParamId)
    (l : list aku_Sample) (r : Recorder) :
  let sink kept := mk_Recorder (events r ++ map OnPut kept) in
  feed l (NodeBuilder.make_filter_by_id_list ids r) =
    Some (NodeBuilder.make_filter_by_id_list ids
            (sink (List.filter (passes (listed ids)) l)))
  /\ feed l (NodeBuilder.make_filter_out_by_id_list ids r) =
       Some (NodeBuilder.make_filter_out_by_id_list ids
               (sink (List.filter (passes (fun i => negb (listed ids i))) l)))
  /\ feed l (NodeBuilder.make_filter_by_id id r) =
       Some (NodeBuilder.make_filter_by_id id
               (sink (List.filter (passes (listed [id])) l))).
Proof.
  intros sink. unfold sink.
  split; [apply make_filter_by_id_list_feed|].
  split; [apply make_filter_out_by_id_list_feed|].
  unfold NodeBuilder.make_filter_by_id. rewrite filter_feed_Recorder.
  do 5 f_equal. apply filter_passes_ext. intros i. unfold listed.
  destruct (Z.eqb_spec i id) as [->|Hne]; symmetry.
  - apply bool_decide_eq_true. by apply list_elem_of_singleton.
  - apply bool_decide_eq_false. by rewrite list_elem_of_singleton.
Qed.

Lemma passes_partition (ids : list aku_ParamId) (l : list aku_Sample) :
  Permutation
    (List.filter (passes (listed ids)) l
     ++ List.filter (passes (fun i => negb (listed ids i))) l)
    (l ++ List.filter is_sentinel l).
Proof.
  induction l as [|s l IH]; [done|].
  unfold passes in *. simpl.
  destruct (is_sentinel s), (listed ids (paramid s)); simpl.
  - constructor. rewrite <- Permutation_middle. rewrite IH.
    by rewrite <- Permutation_middle.
  - constructor. rewrite <- Permutation_middle. rewrite IH.
    by rewrite <- Permutation_middle.
  - by constructor.
  - rewrite <- Permutation_middle. by constructor.
Qed.

(** X8.  An include-list filter and the exclude-list filter of the same
    vector split a stream between them: fed the same samples, their two
    sinks together receive every data sample once and every empty sentinel
    twice. *)
Theorem id_list_filters_partition (ids : list aku_ParamId) (l : list aku_Sample) :
  exists kept dropped : list aku_Sample,
    feed l (NodeBuilder.make_filter_by_id_list ids Scenario.sink) =
      Some (NodeBuilder.make_filter_by_id_list ids (mk_Recorder (map OnPut kept)))
    /\ feed l (NodeBuilder.make_filter_out_by_id_list ids Scenario.sink) =
         Some (NodeBuilder.make_filter_out_by_id_list ids (mk_Recorder (map OnPut dropped)))
    /\ Permutation (kept ++ dropped) (l ++ List.filter is_sentinel l).
Proof.
  exists (List.filter (passes (listed ids)) l),
    (List.filter (passes (fun i => negb (listed ids i))) l).
  rewrite make_filter_by_id_list_feed, make_filter_out_by_id_list_feed.
  repeat split. apply passes_partition.
Qed.

(** ** Group-by *)

Lemma groupby_put_Recorder (sample : aku_Sample) (g : GroupByStatement.t) (r : Recorder) :
  exists g' m,
    GroupByStatement.put sample g r =
      Some (true, g', mk_Recorder (events r ++ m ++ [OnPut sample]))
    /\ mark m
    /\ GroupByStatement.step_ g' = GroupByStatement.step_ g
    /\ (GroupByStatement.step_ g = 0 -> m = []).
Proof.
  destruct r as [ev]. unfold GroupByStatement.put.
  destruct (Z.eqb_spec (GroupByStatement.step_ g) 0) as [Hz|Hnz].
  { exists g, []. cbn. repeat split; try done. by left. }
  assert (GroupByStatement.step_ (GroupByStatement.align (timestamp sample) g)
          = GroupByStatement.step_ g) as Hstep.
  { unfold GroupByStatement.align. by destruct (GroupByStatement.first_hit_ g). }
  set (g1 := GroupByStatement.align (timestamp sample) g) in *.
  destruct (GroupByStatement.upperbound_ g1 <=? timestamp sample).
  { eexists _, [OnPut (sentinel (GroupByStatement.upperbound_ g1))]. cbn.
    rewrite <- app_assoc. repeat split; try done. right. by eexists. }
  destruct (timestamp sample <? GroupByStatement.lowerbound_ g1).
  { eexists _, [OnPut (sentinel (GroupByStatement.upperbound_ g1))]. cbn.
    rewrite <- app_assoc. repeat split; try done. right. by eexists. }
  exists g1, []. cbn. repeat split; try done. by left.
Qed.

Lemma scan_feed_Recorder (l : list aku_Sample)
    (q : ScanQueryProcessor.t Recorder) :
  exists q' marks,
    ScanQueryProcessor.feed l q = Some q'
    /\ length marks = length l
    /\ Forall mark marks
    /\ (GroupByStatement.step_ (ScanQueryProcessor.groupby_ q) = 0 ->
        Forall (fun m => m = []) marks)
    /\ events (ScanQueryProcessor.root_node_ q')
       = events (ScanQueryProcessor.root_node_ q) ++ marked marks l.
Proof.
  revert q. induction l as [|s l IH]; intros q.
  - exists q, []. cbn. rewrite app_nil_r. repeat split; constructor.
  - cbn [ScanQueryProcessor.feed]. unfold ScanQueryProcessor.put.
    destruct (groupby_put_Recorder s (ScanQueryProcessor.groupby_ q)
                (ScanQueryProcessor.root_node_ q)) as (g' & m & -> & Hm & Hstep & Hzero).
    cbn [mbind option_bind].
    destruct (IH (ScanQueryProcessor.with_chain q g'
                    (mk_Recorder (events (ScanQueryProcessor.root_node_ q) ++ m ++ [OnPut s]))))
      as (q' & marks & -> & Hlen & Hmarks & Hzeros & Hev).
    exists q', (m :: marks). repeat split.
    + simpl. by rewrite Hlen.
    + by constructor.
    + intros Hz. constructor; [by apply Hzero|]. apply Hzeros. simpl. by rewrite Hstep.
    + rewrite Hev. unfold marked. simpl. by rewrite <- !app_assoc.
Qed.

(** X9.  A scan query processor over an accepting sink never drops,
    repeats or reorders a sample: whatever the group-by statement, the sink
    receives the samples in their order, each with at most one empty
    sentinel in front of it, and [stop] passes one [complete] on.  With
    step 0 no sentinel is inserted at all. *)
Theorem scan_keeps_every_sample (l : list aku_Sample)
    (q : ScanQueryProcessor.t Recorder) :
  exists q' marks,
    ScanQueryProcessor.run l q = Some q'
    /\ length marks = length l
    /\ Forall mark marks
    /\ (GroupByStatement.step_ (ScanQueryProcessor.groupby_ q) = 0 ->
        Forall (fun m => m = []) marks)
    /\ events (ScanQueryProcessor.root_node_ q')
       = events (ScanQueryProcessor.root_node_ q) ++ marked marks l ++ [OnComplete].
Proof.
  destruct (scan_feed_Recorder l q) as (q' & marks & Hfeed & Hlen & Hmarks & Hzero & Hev).
  unfold ScanQueryProcessor.run. rewrite Hfeed. cbn.
  eexists _, marks. repeat split; try done. cbn. by rewrite Hev, <- app_assoc.
Qed.

(** X10.  The first sample a group-by of step [step > 0] sees sets the
    window to the multiple-of-[step] interval that holds its timestamp, and
    is handed on without a sentinel (as long as the interval's upper bound
    fits 64 bits). *)
Theorem groupby_first_hit_aligned (step : aku_Timestamp) (sample : aku_Sample)
    (r : Recorder) :
  0 < step ->
  0 <= timestamp sample ->
  timestamp sample / step * step + step < 2 ^ 64 ->
  exists lb,
    GroupByStatement.put sample (GroupByStatement.create step) r =
      Some (true, GroupByStatement.mk step false lb (lb + step),
            mk_Recorder (events r ++ [OnPut sample]))
    /\ lb mod step = 0
    /\ lb <= timestamp sample < lb + step.
Proof.
  intros Hstep Hts Hfit. set (ts := timestamp sample) in *.
  exists (ts / step * step).
  assert (0 <= ts / step * step <= ts) as Hlb.
  { pose proof (Z.mul_div_le ts step Hstep). split; [|lia].
    apply Z.mul_nonneg_nonneg; [|lia]. apply Z.div_pos; lia. }
  assert (ts < ts / step * step + step) as Hub.
  { pose proof (Z.mod_pos_bound ts step Hstep).
    pose proof (Z.div_mod ts step). lia. }
  split; [|split; [apply Z.mod_mul; lia|lia]].
  destruct r as [ev]. unfold GroupByStatement.put, GroupByStatement.create,
    GroupByStatement.align. cbn.
  destruct (Z.eqb_spec step 0) as [|_]; [lia|]. fold ts.
  assert (u64 (ts / step * step) = ts / step * step) as ->
    by (unfold u64; apply Z.mod_small; lia).
  assert (u64 (ts / step * step + step) = ts / step * step + step) as ->
    by (unfold u64; apply Z.mod_small; lia).
  destruct (Z.leb_spec (ts / step * step + step) ts); [lia|].
  destruct (Z.ltb_spec ts (ts / step * step)); [lia|]. done.
Qed.

(** A sample at 25 opens the window [20, 30) of a group-by of step 10. *)
Lemma groupby_first_hit_aligned_witness :
  0 < 10 /\ 0 <= timestamp (float_sample 7 25 3)
  /\ exists lb,
      GroupByStatement.put (float_sample 7 25 3) (GroupByStatement.create 10) Scenario.sink =
        Some (true, GroupByStatement.mk 10 false lb (lb + 10),
              mk_Recorder [OnPut (float_sample 7 25 3)])
      /\ lb mod 10 = 0
      /\ lb <= 25 < lb + 10.
Proof.
  split; [lia|]. split; [vm_compute; discriminate|].
  apply (groupby_first_hit_aligned 10 (float_sample 7 25 3) Scenario.sink);
    [lia|vm_compute; discriminate|vm_compute; reflexivity].
Defined.

Lemma u64_range z : 0 <= u64 z < 2 ^ 64.
Proof. unfold u64. apply Z.mod_pos_bound. lia. Qed.

(** X11.  Every [put] keeps the step of a group-by and the width of its
    window: once the first sample has been seen the upper bound is the
    lower bound plus the step, modulo [2^64], whether the window was left
    where it was, moved forward or moved backward, and whether or not the
    successor accepted the sentinel. *)
Theorem groupby_window_width {T} `{Node T} (sample : aku_Sample)
    (g g' : GroupByStatement.t) (next next' : T) (ok : bool) :
  window g ->
  GroupByStatement.put sample g next = Some (ok, g', next') ->
  GroupByStatement.step_ g' = GroupByStatement.step_ g
  /\ (GroupByStatement.step_ g <> 0 -> GroupByStatement.first_hit_ g' = false)
  /\ window g'.
Proof.
  intros Hw. unfold GroupByStatement.put.
  destruct (Z.eqb_spec (GroupByStatement.step_ g) 0) as [Hz|Hnz].
  { destruct (Node.put sample next) as [[ok1 n1]|]; simpl; [|done].
    intros [= <- <- <-]. done. }
  set (g1 := GroupByStatement.align (timestamp sample) g).
  assert (GroupByStatement.step_ g1 = GroupByStatement.step_ g
          /\ GroupByStatement.first_hit_ g1 = false
          /\ 0 <= GroupByStatement.lowerbound_ g1 < 2 ^ 64
          /\ GroupByStatement.upperbound_ g1
             = u64 (GroupByStatement.lowerbound_ g1 + GroupByStatement.step_ g1))
    as (Hs1 & Hf1 & Hlb1 & Hub1).
  { unfold g1, GroupByStatement.align.
    destruct (GroupByStatement.first_hit_ g) eqn:Hfirst; simpl.
    - repeat split; try done; apply u64_range.
    - destruct (Hw Hfirst) as [? ?]. done. }
  clearbody g1.
  destruct (GroupByStatement.upperbound_ g1 <=? timestamp sample).
  { destruct (Node.put _ next) as [[[] n1]|]; simpl; [| |done].
    - destruct (Node.put sample n1) as [[ok2 n2]|]; simpl; [|done].
      intros [= <- <- <-]. simpl. split; [done|]. split; [done|].
      intros _. simpl. split; [apply u64_range|]. by rewrite Hub1.
    - intros [= <- <- <-]. split; [done|]. split; [done|]. intros _. done. }
  destruct (timestamp sample <? GroupByStatement.lowerbound_ g1).
  { destruct (Node.put _ next) as [[[] n1]|]; simpl; [| |done].
    - destruct (Node.put sample n1) as [[ok2 n2]|]; simpl; [|done].
      intros [= <- <- <-]. simpl. split; [done|]. split; [done|].
      intros _. simpl. split; [apply u64_range|]. rewrite Hub1. unfold u64.
      rewrite Zminus_mod_idemp_l, Zplus_mod_idemp_l.
      replace (GroupByStatement.lowerbound_ g1 + GroupByStatement.step_ g1
               - GroupByStatement.step_ g1) with (GroupByStatement.lowerbound_ g1) by lia.
      replace (GroupByStatement.lowerbound_ g1 - GroupByStatement.step_ g1
               + GroupByStatement.step_ g1) with (GroupByStatement.lowerbound_ g1) by lia.
      done.
    - intros [= <- <- <-]. split; [done|]. split; [done|]. intros _. done. }
  destruct (Node.put sample next) as [[ok1 n1]|]; simpl; [|done].
  intros [= <- <- <-]. split; [done|]. split; [done|]. intros _. done.
Qed.

(** The window [0, 10) moves to [10, 20) when a sample at 12 arrives. *)
Lemma groupby_window_width_witness :
  window (GroupByStatement.mk 10 false 0 10)
  /\ window (GroupByStatement.mk 10 false 10 20).
Proof.
  assert (window (GroupByStatement.mk 10 false 0 10)) as Hw.
  { intros _. simpl. split; [lia|reflexivity]. }
  split; [exact Hw|].
  apply (groupby_window_width (float_sample 7 12 2) (GroupByStatement.mk 10 false 0 10)
           (GroupByStatement.mk 10 false 10 20) Scenario.sink
           (mk_Recorder [OnPut (sentinel 10); OnPut (float_sample 7 12 2)]) true Hw).
  vm_compute. reflexivity.
Defined.

(** ** A sink that stops the producer *)

Lemma put_all_Limited (l : list aku_Sample) (b : nat) (seen0 : list Event) :
  put_all l (mk_Limited b seen0) =
    if decide (length l <= b)%nat
    then Some (true, mk_Limited (b - length l) (seen0 ++ map OnPut l))
    else Some (false, mk_Limited 0 (seen0 ++ map OnPut (take (S b) l))).
Proof.
  revert b seen0. induction l as [|s l IH]; intros b seen0.
  - simpl. rewrite app_nil_r, Nat.sub_0_r. done.
  - cbn [put_all]. destruct b as [|b]; cbn.
    + rewrite take_0. done.
    + rewrite IH. repeat case_decide; try lia; by rewrite <- app_assoc.
Qed.

(** ** The metadata query processor *)

Section Metadata.
Context `{Indeterminate}.
Import MetadataQueryProcessor.

Lemma start_loop_put_all {T} `{Node T} (ids : list aku_ParamId) (root : T) :
  start_loop ids root = put_all (map sample_of ids) root.
Proof.
  revert root. induction ids as [|id ids IH]; intros root; [done|].
  cbn [start_loop put_all map]. destruct (Node.put (sample_of id) root) as [[[] root']|];
    simpl; [apply IH|done|done].
Qed.

(** X12.  [start] of a metadata query processor over an accepting sink
    sends one sample per id of its vector, in the vector's order and with
    its repetitions: the id, timestamp 0 and payload type [PARAMID_BIT];
    and returns [true].  [put] returns [false] and does nothing, and the
    bounds are both [AKU_MAX_TIMESTAMP]. *)
Theorem metadata_start_sends_ids (ids : list aku_ParamId) (r : Recorder)
    (sample : aku_Sample) :
  let q := create ids r in
  start q = Some (true, mk ids (mk_Recorder (events r ++ map OnPut (map sample_of ids))))
  /\ Forall (fun s => timestamp s = 0 /\ payload_type s = aku_PData.PARAMID_BIT
                      /\ is_sentinel s = false) (map sample_of ids)
  /\ map paramid (map sample_of ids) = ids
  /\ put sample q = (false, q)
  /\ lowerbound q = upperbound q.
Proof.
  intros q. unfold q, start, create. cbn [ids_ root_].
  rewrite start_loop_put_all, put_all_Recorder. repeat split.
  - apply Forall_forall. intros s Hs. apply list_elem_of_fmap in Hs as (id & -> & _). done.
  - rewrite map_map. simpl. apply map_id.
Qed.

(** X13.  [start] stops at the first sample the successor refuses and
    returns [false]: over a sink that accepts [b] samples, with more than
    [b] ids, the sink is offered the first [b + 1] ids and no more. *)
Theorem metadata_start_refused (ids : list aku_ParamId) (b : nat) (seen0 : list Event) :
  (b < length ids)%nat ->
  start (create ids (mk_Limited b seen0)) =
    Some (false, mk ids (mk_Limited 0 (seen0 ++ map OnPut (map sample_of (take (S b) ids))))).
Proof.
  intros Hb. unfold start, create. cbn [ids_ root_].
  rewrite start_loop_put_all, put_all_Limited, length_map.
  case_decide; [lia|]. cbn. by rewrite firstn_map.
Qed.
End Metadata.

(** Ids 5, 7, 9 over a sink that takes one sample: 5 is taken, 7 is
    refused, 9 is never sent. *)
Lemma metadata_start_refused_witness :
  (1 < length [5; 7; 9])%nat
  /\ MetadataQueryProcessor.start (H := Fixture.junk)
       (MetadataQueryProcessor.create [5; 7; 9] (mk_Limited 1 [])) =
     Some (false,
           MetadataQueryProcessor.mk [5; 7; 9]
             (mk_Limited 0 [OnPut (MetadataQueryProcessor.sample_of (H := Fixture.junk) 5);
                            OnPut (MetadataQueryProcessor.sample_of (H := Fixture.junk) 7)])).
Proof.
  split; [simpl; lia|].
  apply (metadata_start_refused (H := Fixture.junk) [5; 7; 9] 1 []). simpl. lia.
Defined.

(** ** More on the reservoir *)

(** X14.  A reservoir never holds more samples than its capacity and never
    holds a sample it was not given: every [put], whatever the sample and
    the successor, keeps the capacity, keeps the buffer within it, and
    leaves in the buffer only the new sample and samples that were there. *)
Theorem reservoir_buffer_bounded {T} `{Node T} (sample : aku_Sample)
    (n n' : RandomSamplingNode.t T) (ok : bool) :
  Z.of_nat (length (RandomSamplingNode.samples_ n)) <= RandomSamplingNode.buffer_size_ n ->
  RandomSamplingNode.put sample n = Some (ok, n') ->
  RandomSamplingNode.buffer_size_ n' = RandomSamplingNode.buffer_size_ n
  /\ Z.of_nat (length (RandomSamplingNode.samples_ n')) <= RandomSamplingNode.buffer_size_ n
  /\ (forall s, s ∈ RandomSamplingNode.samples_ n' ->
        s = sample \/ s ∈ RandomSamplingNode.samples_ n).
Proof.
  intros Hle. unfold RandomSamplingNode.put.
  destruct (payload_type sample =? aku_PData.EMPTY).
  { unfold RandomSamplingNode.flush.
    destruct (put_all _ _) as [[[] next']|]; simpl; intros [= <- <-]; simpl.
    - repeat split; [lia|]. intros s Hs. by apply elem_of_nil in Hs.
    - rewrite stable_sort_length. repeat split; [done|].
      intros s Hs. right.
      by rewrite (stable_sort_Permutation RandomSamplingNode.predicate
                    (RandomSamplingNode.samples_ n)) in Hs. }
  destruct (Z.ltb_spec (Z.of_nat (length (RandomSamplingNode.samples_ n)))
              (RandomSamplingNode.buffer_size_ n)).
  { intros [= <- <-]; simpl. rewrite length_app. simpl. repeat split; [lia|].
    intros s Hs. apply elem_of_app in Hs as [Hs|Hs]; [by right|left].
    by apply list_elem_of_singleton in Hs. }
  destruct (Rand_call (RandomSamplingNode.random_ n)) as [r random'].
  destruct (Z.of_nat (length (RandomSamplingNode.samples_ n)) =? 0); [done|].
  destruct (_ <? RandomSamplingNode.buffer_size_ n).
  - destruct (_ <? _); [|done]. intros [= <- <-].
    cbn [RandomSamplingNode.samples_ RandomSamplingNode.buffer_size_].
    rewrite length_insert. repeat split; [done|].
    intros s Hs. apply list_elem_of_lookup in Hs as [i Hi].
    apply list_lookup_insert_Some in Hi as [(_ & Hs & _)|[_ Hi]]; [by left|right].
    apply list_elem_of_lookup. by exists i.
  - intros [= <- <-]; simpl. repeat split; [done|]. by right.
Qed.

(** The full reservoir of capacity two stays at two samples. *)
Lemma reservoir_buffer_bounded_witness :
  Z.of_nat (length (RandomSamplingNode.samples_ Scenario.full_reservoir))
  <= RandomSamplingNode.buffer_size_ Scenario.full_reservoir
  /\ exists n', RandomSamplingNode.put (float_sample 3 7 0) Scenario.full_reservoir
                = Some (true, n')
       /\ Z.of_nat (length (RandomSamplingNode.samples_ n')) <= 2.
Proof.
  assert (Z.of_nat (length (RandomSamplingNode.samples_ Scenario.full_reservoir))
          <= RandomSamplingNode.buffer_size_ Scenario.full_reservoir) as Hle
    by (vm_compute; discriminate).
  split; [exact Hle|].
  eexists. split; [vm_compute; reflexivity|].
  exact (proj1 (proj2 (reservoir_buffer_bounded (float_sample 3 7 0)
                         Scenario.full_reservoir _ true Hle eq_refl))).
Defined.

(** X15.  A flush that the successor stops keeps the whole buffer: over a
    sink that accepts [b] samples, with more than [b] samples buffered, the
    empty sentinel makes the reservoir offer the first [b + 1] samples of
    the sorted buffer and return [false], and the buffer then holds all the
    samples, sorted, including the [b] the successor accepted. *)
Theorem reservoir_refused_flush_keeps_buffer (sample : aku_Sample)
    (n : RandomSamplingNode.t Limited) :
  payload_type sample = aku_PData.EMPTY ->
  (budget (RandomSamplingNode.next_ n) < length (RandomSamplingNode.samples_ n))%nat ->
  let sorted := stable_sort RandomSamplingNode.predicate (RandomSamplingNode.samples_ n) in
  RandomSamplingNode.put sample n =
    Some (false,
          RandomSamplingNode.mk (RandomSamplingNode.buffer_size_ n) sorted
            (RandomSamplingNode.random_ n)
            (mk_Limited 0
               (seen (RandomSamplingNode.next_ n)
                ++ map OnPut (take (S (budget (RandomSamplingNode.next_ n))) sorted))))
  /\ Permutation sorted (RandomSamplingNode.samples_ n).
Proof.
  intros Hempty Hb sorted. split; [|apply stable_sort_Permutation].
  unfold RandomSamplingNode.put, RandomSamplingNode.flush. rewrite Hempty. cbn.
  destruct (RandomSamplingNode.next_ n) as [b seen0] eqn:Hnext. simpl in *.
  rewrite put_all_Limited. fold sorted.
  case_decide as Hlen; [|done].
  unfold sorted in Hlen. rewrite stable_sort_length in Hlen. lia.
Qed.

(** The reservoir of the scenarios over the sink that takes one sample. *)
Lemma reservoir_refused_flush_keeps_buffer_witness :
  payload_type (sentinel 10) = aku_PData.EMPTY
  /\ (1 < 2)%nat
  /\ RandomSamplingNode.put (sentinel 10) Scenario.refused_reservoir =
       Some (false,
             RandomSamplingNode.mk 2 [float_sample 2 3 0; float_sample 1 5 0] Scenario.random
               (mk_Limited 0 [OnPut (float_sample 2 3 0); OnPut (float_sample 1 5 0)])).
Proof.
  split; [reflexivity|].
  assert (budget (RandomSamplingNode.next_ Scenario.refused_reservoir)
          < length (RandomSamplingNode.samples_ Scenario.refused_reservoir))%nat as Hb
    by (simpl; lia).
  split; [lia|].
  exact (proj1 (reservoir_refused_flush_keeps_buffer (sentinel 10) Scenario.refused_reservoir
                  eq_refl Hb)).
Defined.

Lemma feed_below_capacity {T} `{Node T} (l : list aku_Sample) (n : RandomSamplingNode.t T) :
  Forall (fun s => is_sentinel s = false) l ->
  Z.of_nat (length (RandomSamplingNode.samples_ n) + length l)
  <= RandomSamplingNode.buffer_size_ n ->
  feed l n =
    Some (RandomSamplingNode.mk (RandomSamplingNode.buffer_size_ n)
            (RandomSamplingNode.samples_ n ++ l)
            (RandomSamplingNode.random_ n) (RandomSamplingNode.next_ n)).
Proof.
  intros Hl. revert n. induction Hl as [|s l Hs Hl IH]; intros n Hroom.
  - rewrite app_nil_r. by destruct n.
  - cbn [length] in Hroom. unfold is_sentinel in Hs. apply Z.eqb_neq in Hs.
    assert (Z.of_nat (length (RandomSamplingNode.samples_ n))
            < RandomSamplingNode.buffer_size_ n) as Hlt by lia.
    rewrite (@feed_accepted _ RandomSamplingNode.node s l n _ (put_append s n Hs Hlt)).
    rewrite IH; cbn [RandomSamplingNode.samples_ RandomSamplingNode.buffer_size_
                     RandomSamplingNode.random_ RandomSamplingNode.next_].
    + by rewrite <- app_assoc.
    + rewrite length_app. simpl. lia.
Qed.

(** X29.  Below its capacity a reservoir is a sorter: fed no more data
    samples than its capacity, a fresh reservoir keeps them all without
    drawing a random number, and [complete] hands an accepting sink these
    samples, stable-sorted by (timestamp, paramid), followed by
    [complete]. *)
Theorem reservoir_below_capacity_sorts (k : Z) (random : Rand) (r : Recorder)
    (l : list aku_Sample) :
  Forall (fun s => is_sentinel s = false) l ->
  Z.of_nat (length l) <= k < 2 ^ 32 ->
  run l (RandomSamplingNode.create k random r) =
    Some (RandomSamplingNode.mk k [] random
            (mk_Recorder (events r
                          ++ map OnPut (stable_sort RandomSamplingNode.predicate l)
                          ++ [OnComplete]))).
Proof.
  intros Hl Hk. unfold run.
  assert (u32 k = k) as Hu by (unfold u32; apply Z.mod_small; lia).
  rewrite feed_below_capacity; [|done|simpl; rewrite Hu; lia].
  unfold RandomSamplingNode.create. rewrite Hu.
  cbn [mbind option_bind Node.complete RandomSamplingNode.node
       RandomSamplingNode.samples_ RandomSamplingNode.buffer_size_
       RandomSamplingNode.random_ RandomSamplingNode.next_ app].
  unfold RandomSamplingNode.complete. rewrite flush_Recorder. cbn.
  by rewrite <- app_assoc.
Qed.

(** Two samples in a reservoir of capacity two come out sorted. *)
Lemma reservoir_below_capacity_sorts_witness :
  Forall (fun s => is_sentinel s = false) [float_sample 1 5 0; float_sample 2 3 0]
  /\ Z.of_nat (length [float_sample 1 5 0; float_sample 2 3 0]) <= 2 < 2 ^ 32
  /\ run [float_sample 1 5 0; float_sample 2 3 0]
         (RandomSamplingNode.create 2 Scenario.random Scenario.sink) =
     Some (RandomSamplingNode.mk 2 [] Scenario.random
             (mk_Recorder [OnPut (float_sample 2 3 0); OnPut (float_sample 1 5 0);
                           OnComplete])).
Proof.
  assert (Forall (fun s => is_sentinel s = false) [float_sample 1 5 0; float_sample 2 3 0])
    as Hdata by (repeat constructor).
  assert (Z.of_nat (length [float_sample 1 5 0; float_sample 2 3 0]) <= 2 < 2 ^ 32) as Hk
    by (simpl; lia).
  split; [exact Hdata|]. split; [exact Hk|].
  exact (reservoir_below_capacity_sorts 2 Scenario.random Scenario.sink
           [float_sample 1 5 0; float_sample 2 3 0] Hdata Hk).
Defined.

(** ** More on sliding windows *)

Section WindowData.
Context {S T : Type} `{State S} `{Node T}.

Lemma sliding_window_feed_data (l tail : list aku_Sample) (n : SlidingWindow.t S T) :
  Forall (fun s => is_sentinel s = false) l ->
  feed (l ++ tail) n =
    feed tail (SlidingWindow.mk (SlidingWindow.next_ n)
                                (foldl absorb (SlidingWindow.counters_ n) l)).
Proof.
  intros Hl. revert n. induction Hl as [|s l Hs Hl IH]; intros n.
  - by destruct n.
  - cbn [app feed foldl]. cbn [Node.put SlidingWindow.node].
    unfold SlidingWindow.put. unfold is_sentinel in Hs. rewrite Hs.
    cbn [mbind option_bind]. rewrite IH. done.
Qed.

Lemma foldl_absorb_lookup (l : list aku_Sample) (counters : gmap Z S) (id : aku_ParamId) :
  foldl absorb counters l !! id = series_state id l (counters !! id).
Proof.
  revert counters. induction l as [|s l IH]; intros counters; [done|].
  unfold series_state in *. cbn [foldl]. rewrite IH. f_equal.
  unfold absorb. destruct (Z.eqb_spec (paramid s) id) as [->|Hne].
  - by rewrite lookup_insert_eq.
  - by rewrite lookup_insert_ne.
Qed.

(** X16.  Between two sentinels a sliding window only accumulates: it
    accepts every data sample, never calls its successor, and the state it
    holds for a series is the fold of [State::add] over the samples of that
    series in their order of arrival, started from a default-constructed
    state if the series had no entry; a series without samples keeps what it
    had. *)
Theorem sliding_window_accumulates (l : list aku_Sample) (n : SlidingWindow.t S T) :
  Forall (fun s => is_sentinel s = false) l ->
  exists counters,
    feed l n = Some (SlidingWindow.mk (SlidingWindow.next_ n) counters)
    /\ forall id, counters !! id = series_state id l (SlidingWindow.counters_ n !! id).
Proof.
  intros Hl. exists (foldl absorb (SlidingWindow.counters_ n) l). split.
  - rewrite <- (app_nil_r l) at 1. by rewrite sliding_window_feed_data.
  - intros id. apply foldl_absorb_lookup.
Qed.

Lemma average_loop_dom (ts : aku_Timestamp) (l : list (Z * S))
    (counters counters' : gmap Z S) (next next' : T) (ok : bool) :
  (forall id state, (id, state) ∈ l -> id ∈ dom counters) ->
  SlidingWindow.average_loop ts l counters next = Some (ok, counters', next') ->
  dom counters' = dom counters.
Proof.
  revert counters next. induction l as [|[id state] l IH]; intros counters next Hin.
  - by intros [= _ <- _].
  - cbn [SlidingWindow.average_loop].
    assert (id ∈ dom counters) as Hid by (eapply Hin; by left).
    assert (forall c : S, dom (<[id := c]> counters) = dom counters) as Hdom.
    { intros c. rewrite dom_insert_L. apply subseteq_union_1_L.
      by apply singleton_subseteq_l. }
    destruct (ready state).
    + destruct (value state) as [[v state']|]; simpl; [|done].
      destruct (Node.put _ next) as [[[] next1]|]; simpl; [| |done].
      * intros Hloop. apply IH in Hloop; [by rewrite Hloop|].
        intros id' st' Hin'. rewrite Hdom. eapply Hin. by right.
      * intros [= _ <- _]. apply Hdom.
    + apply IH. intros id' st' Hin'. eapply Hin. by right.
Qed.

(** X17.  A sliding window never forgets a series: an empty sentinel makes
    it reset states but leaves the set of ids it holds as it is, and a data
    sample adds its id to the set; no [put] removes an entry. *)
Theorem sliding_window_keeps_series (sample : aku_Sample) (n n' : SlidingWindow.t S T)
    (ok : bool) :
  SlidingWindow.put sample n = Some (ok, n') ->
  dom (SlidingWindow.counters_ n') =
    if is_sentinel sample then dom (SlidingWindow.counters_ n)
    else {[ paramid sample ]} ∪ dom (SlidingWindow.counters_ n).
Proof.
  unfold SlidingWindow.put, is_sentinel.
  destruct (payload_type sample =? aku_PData.EMPTY).
  - unfold SlidingWindow.average_samples.
    destruct (SlidingWindow.average_loop _ _ _ _) as [[[ok1 counters1] next1]|] eqn:Hloop;
      simpl; [|done].
    apply average_loop_dom in Hloop.
    2:{ intros id state Hin. apply elem_of_map_to_list in Hin. by apply elem_of_dom. }
    destruct ok1; simpl.
    + destruct (Node.put EMPTY_SAMPLE next1) as [[[] next2]|]; simpl; [| |done];
        by intros [= _ <-].
    + by intros [= _ <-].
  - intros [= _ <-]. simpl. by rewrite dom_insert_L.
Qed.
End WindowData.

(** The two samples of scenario 2's series 1 add up to 6. *)
Lemma sliding_window_accumulates_witness :
  Forall (fun s => is_sentinel s = false) [float_sample 1 1 2; float_sample 1 2 4]
  /\ exists counters : gmap Z MovingAverageCounter.t,
      feed [float_sample 1 1 2; float_sample 1 2 4] (SlidingWindow.create Scenario.sink)
      = Some (SlidingWindow.mk Scenario.sink counters)
      /\ counters !! 1 = Some (MovingAverageCounter.mk 6 2)
      /\ counters !! 2 = None.
Proof.
  assert (Forall (fun s => is_sentinel s = false) [float_sample 1 1 2; float_sample 1 2 4])
    as Hdata by (repeat constructor).
  split; [exact Hdata|].
  destruct (sliding_window_accumulates [float_sample 1 1 2; float_sample 1 2 4]
              (SlidingWindow.create (S := MovingAverageCounter.t) Scenario.sink) Hdata)
    as (counters & Hfeed & Hall).
  exists counters. split; [exact Hfeed|]. rewrite !Hall. split; reflexivity.
Defined.

(** The fresh moving average holds series 1 after its first sample. *)
Lemma sliding_window_keeps_series_witness :
  dom ({[ 1 := MovingAverageCounter.mk 2 1 ]} : gmap Z MovingAverageCounter.t)
  = {[ 1 ]} ∪ dom (∅ : gmap Z MovingAverageCounter.t).
Proof.
  assert (SlidingWindow.put (float_sample 1 1 2) (SlidingWindow.create Scenario.sink)
          = Some (true, SlidingWindow.mk Scenario.sink {[ 1 := MovingAverageCounter.mk 2 1 ]}))
    as Hput by (vm_compute; reflexivity).
  exact (sliding_window_keeps_series _ _ _ _ Hput).
Defined.

Section WindowEmpty.
Context {S : Type} `{State S}.

Lemma omap_synthesized_idle (ts : aku_Timestamp) (l : list (Z * S)) :
  Forall (fun entry => ready entry.2 = false) l -> omap (synthesized ts) l = [].
Proof.
  induction 1 as [|[id state] l Hr _ IH]; [done|].
  cbn [omap]. unfold synthesized at 1. simpl in *. by rewrite Hr.
Qed.

(** X18.  A bucket without data yields no synthetic sample: if [reset]
    leaves a state that is not ready, then of two empty sentinels in a row
    the second makes the sliding window forward only the empty
    [EMPTY_SAMPLE], and changes no state. *)
Theorem sliding_window_empty_bucket (s1 s2 : aku_Sample) (n : SlidingWindow.t S Recorder) :
  (forall state, ready (reset state) = false) ->
  (forall id state, SlidingWindow.counters_ n !! id = Some state ->
     ready state = true -> is_Some (value state)) ->
  is_sentinel s1 = true ->
  is_sentinel s2 = true ->
  feed [s1; s2] n =
    Some (SlidingWindow.mk
            (mk_Recorder
               (events (SlidingWindow.next_ n)
                ++ map OnPut (omap (synthesized (timestamp s1))
                                   (map_to_list (SlidingWindow.counters_ n)))
                ++ [OnPut EMPTY_SAMPLE; OnPut EMPTY_SAMPLE]))
            (after_sentinel <$> SlidingWindow.counters_ n)).
Proof.
  intros Hreset Hvalue Hs1 Hs2. unfold is_sentinel in *.
  assert (forall id state, SlidingWindow.counters_ n !! id = Some state ->
            ready (after_sentinel state) = false) as Hidle.
  { intros id state Hid. unfold after_sentinel. destruct (ready state) eqn:Hr; [|done].
    by destruct (Hvalue id state Hid Hr) as [[v state'] ->]. }
  cbn [feed Node.put SlidingWindow.node].
  unfold SlidingWindow.put, SlidingWindow.average_samples. rewrite Hs1, Hs2.
  rewrite average_loop_Recorder
    by (intros id state Hin Hready; apply (Hvalue id state);
        [by apply elem_of_map_to_list|done]).
  cbn. rewrite foldl_visit_map.
  rewrite average_loop_Recorder.
  2:{ intros id state Hin Hready. apply elem_of_map_to_list in Hin.
      rewrite lookup_fmap in Hin.
      destruct (SlidingWindow.counters_ n !! id) as [state0|] eqn:Hid; [|done].
      injection Hin as <-. by rewrite (Hidle id state0 Hid) in Hready. }
  cbn. rewrite foldl_visit_map.
  rewrite (omap_synthesized_idle (timestamp s2)
             (map_to_list (after_sentinel <$> SlidingWindow.counters_ n))).
  2:{ apply Forall_forall. intros [id state] Hin. apply elem_of_map_to_list in Hin.
      rewrite lookup_fmap in Hin.
      destruct (SlidingWindow.counters_ n !! id) as [state0|] eqn:Hid; [|done].
      injection Hin as <-. by apply (Hidle id). }
  do 2 f_equal.
  - f_equal. cbn. rewrite app_nil_r, <- !app_assoc. done.
  - apply map_eq. intros id. rewrite !lookup_fmap.
    destruct (SlidingWindow.counters_ n !! id) as [state|] eqn:Hid; simpl; [|done].
    f_equal. unfold after_sentinel at 1. by rewrite (Hidle id state Hid).
Qed.
End WindowEmpty.

(** The loaded moving average emits its mean once. *)
Lemma sliding_window_empty_bucket_witness :
  feed [sentinel 10; sentinel 20] Scenario.loaded_average =
    Some (SlidingWindow.mk
            (mk_Recorder [OnPut (float_sample 1 10 3); OnPut EMPTY_SAMPLE; OnPut EMPTY_SAMPLE])
            {[ 1 := MovingAverageCounter.mk 0 0 ]}).
Proof.
  rewrite (sliding_window_empty_bucket (sentinel 10) (sentinel 20) Scenario.loaded_average).
  - vm_compute. reflexivity.
  - done.
  - intros id state _ _. by eexists.
  - reflexivity.
  - reflexivity.
Defined.

(** *** The moving average of a bucket *)

Lemma moving_average_feed {T} `{Node T} (l : list aku_Sample)
    (b : SlidingWindow.t MovingAverageCounter.t T) :
  feed l (MovingAverage.mk b) = MovingAverage.mk <$> feed l b.
Proof.
  revert b. induction l as [|s l IH]; intros b; [done|].
  cbn [feed]. cbn [Node.put MovingAverage.node SlidingWindow.node].
  unfold MovingAverage.put. cbn [MovingAverage.base].
  destruct (SlidingWindow.put s b) as [[[] b']|]; simpl; [apply IH|done|done].
Qed.

Lemma foldl_add_average (l : list aku_Sample) (a : float) (k : Z) :
  0 <= k -> k + Z.of_nat (length l) < 2 ^ 64 ->
  foldl (fun c s => MovingAverageCounter.add s c) (MovingAverageCounter.mk a k) l
  = MovingAverageCounter.mk (foldl (fun a s => a + payload_float64 s)%float a l)
                            (k + Z.of_nat (length l)).
Proof.
  revert a k. induction l as [|s l IH]; intros a k Hk Hlen.
  - simpl. by rewrite Z.add_0_r.
  - cbn [foldl]. unfold MovingAverageCounter.add at 2. cbn [MovingAverageCounter.acc
      MovingAverageCounter.num]. cbn [length] in Hlen.
    assert (u64 (k + 1) = k + 1) as -> by (unfold u64; apply Z.mod_small; lia).
    rewrite IH by lia. f_equal. cbn [length]. lia.
Qed.

Lemma foldl_absorb_one_series (id : aku_ParamId) (l : list aku_Sample)
    (counters : gmap Z MovingAverageCounter.t) (c : MovingAverageCounter.t) :
  Forall (fun s => paramid s = id) l ->
  foldl absorb (<[id := c]> counters) l
  = <[id := foldl (fun c s => MovingAverageCounter.add s c) c l]> counters.
Proof.
  intros Hl. revert c. induction Hl as [|s l Hs Hl IH]; intros c; [done|].
  cbn [foldl]. unfold absorb at 2. rewrite Hs, lookup_insert_eq, insert_insert_eq.
  apply IH.
Qed.

(** X19.  What a moving average makes of a bucket: fed [n >= 1] data
    samples of one series and then an empty sentinel at [t], a fresh moving
    average hands its sink one sample of that series, stamped [t], whose
    value is the sum of the samples' values (added in order of arrival)
    divided by [n], followed by the empty [EMPTY_SAMPLE]; the series'
    counter is then back at zero. *)
Theorem moving_average_of_bucket (id : aku_ParamId) (t : aku_Timestamp)
    (l : list aku_Sample) (r : Recorder) :
  l <> [] ->
  Z.of_nat (length l) < 2 ^ 64 ->
  Forall (fun s => paramid s = id /\ is_sentinel s = false) l ->
  feed (l ++ [sentinel t]) (MovingAverage.create r) =
    Some (MovingAverage.mk
            (SlidingWindow.mk
               (mk_Recorder
                  (events r
                   ++ [OnPut (float_sample id t
                                (running_sum l / Double.of_size_t (Z.of_nat (length l))));
                       OnPut EMPTY_SAMPLE]))
               {[ id := MovingAverageCounter.mk 0 0 ]})).
Proof.
  intros Hne Hlen Hl. destruct l as [|s l]; [done|clear Hne].
  unfold MovingAverage.create, SlidingWindow.create.
  rewrite moving_average_feed, sliding_window_feed_data
    by (eapply Forall_impl; [exact Hl|]; by intros ? [_ ?]).
  cbn [SlidingWindow.next_ SlidingWindow.counters_ foldl].
  apply Forall_cons in Hl as [[Hid _] Hl].
  assert (absorb (∅ : gmap Z MovingAverageCounter.t) s
          = <[id := MovingAverageCounter.add s MovingAverageCounter.init]> ∅) as ->
    by (unfold absorb; rewrite lookup_empty, Hid; done).
  rewrite foldl_absorb_one_series by (eapply Forall_impl; [exact Hl|]; by intros ? [? _]).
  unfold MovingAverageCounter.add at 2, MovingAverageCounter.init.
  cbn [MovingAverageCounter.acc MovingAverageCounter.num].
  change (u64 (0 + 1)) with 1.
  cbn [length] in Hlen. rewrite foldl_add_average by lia.
  destruct r as [ev]. cbn [feed Node.put SlidingWindow.node].
  unfold SlidingWindow.put, SlidingWindow.average_samples. cbn [payload_type sentinel
    with_timestamp EMPTY_SAMPLE payload aku_PData.type timestamp].
  change (0 =? aku_PData.EMPTY) with true. cbn [SlidingWindow.next_ SlidingWindow.counters_].
  rewrite insert_empty, map_to_list_singleton.
  cbn [SlidingWindow.average_loop ready MovingAverageCounter.state].
  unfold MovingAverageCounter.ready. cbn [MovingAverageCounter.num].
  destruct (Z.eqb_spec (1 + Z.of_nat (length l)) 0) as [|_]; [lia|].
  cbn. rewrite insert_singleton_eq. unfold running_sum. cbn [foldl length].
  replace (Z.of_nat (S (length l))) with (1 + Z.of_nat (length l)) by lia.
  rewrite <- app_assoc. done.
Qed.

(** Scenario 2's series 1: the samples 2.0 and 4.0 average to 3.0. *)
Lemma moving_average_of_bucket_witness :
  [float_sample 1 1 2; float_sample 1 2 4] <> []
  /\ feed ([float_sample 1 1 2; float_sample 1 2 4] ++ [sentinel 10])
          (MovingAverage.create Scenario.sink) =
     Some (MovingAverage.mk
             (SlidingWindow.mk
                (mk_Recorder [OnPut (float_sample 1 10 3); OnPut EMPTY_SAMPLE])
                {[ 1 := MovingAverageCounter.mk 0 0 ]})).
Proof.
  split; [discriminate|].
  rewrite (moving_average_of_bucket 1 10 [float_sample 1 1 2; float_sample 1 2 4] Scenario.sink).
  - vm_compute. reflexivity.
  - discriminate.
  - vm_compute. reflexivity.
  - repeat constructor.
Defined.

(** ** The moving median *)

Section Median.
Context `{StdPartialSort}.

(** X20.  What [MovingMedianCounter::value] returns for two or more
    values, given what the standard promises of [std::partial_sort]: the
    element the partial sort leaves at index [size / 2].  It is one of the
    values, and none of the [size / 2] smallest values is above it; since
    that index lies outside the sorted part, nothing more is promised. *)
Theorem moving_median_value (c : MovingMedianCounter.t) :
  let middle := (length (MovingMedianCounter.acc c) / 2)%nat in
  let sorted := std_partial_sort middle (MovingMedianCounter.acc c) in
  (2 <= length (MovingMedianCounter.acc c))%nat ->
  partial_sorted middle (MovingMedianCounter.acc c) sorted ->
  exists x,
    MovingMedianCounter.value c = Some (x, MovingMedianCounter.mk sorted)
    /\ sorted !! middle = Some x
    /\ x ∈ MovingMedianCounter.acc c
    /\ length (take middle sorted) = middle
    /\ forall y, y ∈ take middle sorted -> (x <? y)%float = false.
Proof.
  intros middle sorted Hlen (Hperm & _ & Hrest).
  assert (length sorted = length (MovingMedianCounter.acc c)) as Hsl
    by (symmetry; by apply Permutation_length).
  assert (middle < length sorted)%nat as Hmid.
  { rewrite Hsl. unfold middle. apply Nat.div_lt; lia. }
  destruct (lookup_lt_is_Some_2 sorted middle Hmid) as [x Hx].
  exists x. repeat split.
  - unfold MovingMedianCounter.value.
    destruct (MovingMedianCounter.acc c) as [|a [|b l]] eqn:Hacc; simpl in Hlen; try lia.
    fold middle. fold sorted. by rewrite Hx.
  - done.
  - rewrite Hperm. by eapply list_elem_of_lookup_2.
  - rewrite length_take. lia.
  - intros y Hy. apply (Hrest y x Hy).
    apply list_elem_of_lookup. exists 0%nat. rewrite lookup_drop, Nat.add_0_r. done.
Qed.

(** X21.  With two values in the bucket the moving median is the larger of
    the two (not their mean): whichever conforming partial sort is used,
    [value] returns the one that does not compare below the other. *)
Theorem moving_median_of_two (a b : float) :
  partial_sorted 1 [a; b] (std_partial_sort 1 [a; b]) ->
  exists x,
    MovingMedianCounter.value (MovingMedianCounter.mk [a; b])
    = Some (x, MovingMedianCounter.mk (std_partial_sort 1 [a; b]))
    /\ ((x = a /\ (a <? b)%float = false) \/ (x = b /\ (b <? a)%float = false)).
Proof.
  intros (Hperm & _ & Hrest). unfold MovingMedianCounter.value. simpl.
  apply Permutation_length_2_inv in Hperm as [Heq|Heq]; rewrite Heq in *; simpl.
  - exists b. split; [done|]. right. split; [done|].
    apply Hrest; simpl; by apply list_elem_of_singleton.
  - exists a. split; [done|]. left. split; [done|].
    apply Hrest; simpl; by apply list_elem_of_singleton.
Qed.
End Median.

(** The values 3, 1, 2 with the partial sort of the examples: [value] is 3,
    where the median is 2. *)
Lemma moving_median_value_witness :
  (2 <= length [3; 1; 2]%float)%nat
  /\ MovingMedianCounter.value (H := partial_sort_descending_tail)
       (MovingMedianCounter.mk [3; 1; 2]%float)
     = Some (3%float, MovingMedianCounter.mk [1; 3; 2]%float).
Proof.
  split; [simpl; lia|].
  assert (partial_sorted 1 [3; 1; 2]%float [1; 3; 2]%float) as Hsorted.
  { split; [apply perm_swap|]. split; [repeat constructor|].
    intros x y Hx Hy. simpl in Hx, Hy.
    apply list_elem_of_singleton in Hx as ->.
    apply elem_of_cons in Hy as [->|Hy]; [reflexivity|].
    apply list_elem_of_singleton in Hy as ->. reflexivity. }
  assert (2 <= length (MovingMedianCounter.acc (MovingMedianCounter.mk [3; 1; 2]%float)))%nat
    as Hlen by (simpl; lia).
  destruct (moving_median_value (H := partial_sort_descending_tail)
              (MovingMedianCounter.mk [3; 1; 2]%float) Hlen Hsorted)
    as (x & Hvalue & Hx & _).
  injection Hx as <-. exact Hvalue.
Defined.

(** The values 5 and 2: [value] is 5. *)
Lemma moving_median_of_two_witness :
  partial_sorted 1 [5; 2]%float
    (std_partial_sort (StdPartialSort := partial_sort_descending_tail) 1 [5; 2]%float)
  /\ exists x,
      MovingMedianCounter.value (H := partial_sort_descending_tail)
        (MovingMedianCounter.mk [5; 2]%float)
      = Some (x, MovingMedianCounter.mk [2; 5]%float)
      /\ ((x = 5%float /\ (5 <? 2)%float = false) \/ (x = 2%float /\ (2 <? 5)%float = false)).
Proof.
  assert (partial_sorted 1 [5; 2]%float
            (std_partial_sort (StdPartialSort := partial_sort_descending_tail) 1 [5; 2]%float))
    as Hsorted.
  { split; [apply perm_swap|]. split; [repeat constructor|].
    intros x y Hx Hy. simpl in Hx, Hy.
    apply list_elem_of_singleton in Hx as ->.
    apply list_elem_of_singleton in Hy as ->. reflexivity. }
  split; [exact Hsorted|].
  exact (moving_median_of_two (H := partial_sort_descending_tail) 5 2 Hsorted).
Defined.

(** ** More on Space-Saving *)

Section SpaceSaverEdge.
Context {T : Type} `{Indeterminate} `{Node T}.

(** X22.  A Space-Saving node of capacity 0 cannot count anything: the
    first sample it has to count finds the empty map "full", the scan for a
    victim finds none, and [counters_.erase(counters_.end())] is undefined.
    Such a node comes from an infinite [error]. *)
Theorem space_saver_zero_capacity (weighted : bool) (sample : aku_Sample)
    (n : SpaceSaver.t T) :
  bounded n ->
  SpaceSaver.M n = 0 ->
  counted weighted sample = true ->
  SpaceSaver.put weighted sample n = None.
Proof.
  intros [_ Hsize] HM Hcounted. unfold counted, is_sentinel in Hcounted.
  apply andb_prop in Hcounted as [Hdata Hfloat].
  assert (SpaceSaver.counters_ n = ∅) as Hempty.
  { apply map_size_empty_iff. lia. }
  unfold SpaceSaver.put.
  destruct (payload_type sample =? aku_PData.EMPTY); [done|].
  destruct weighted; simpl in Hfloat |- *.
  - destruct (Z.land (payload_type sample) aku_PData.FLOAT_BIT =? 0); [done|]. simpl.
    rewrite Hempty, lookup_empty, map_size_empty, HM. simpl.
    by rewrite map_to_list_empty.
  - rewrite Hempty, lookup_empty, map_size_empty, HM. simpl.
    by rewrite map_to_list_empty.
Qed.

Lemma put_total_weight (weighted : bool) (sample : aku_Sample) (n n' : SpaceSaver.t T)
    (ok : bool) :
  SpaceSaver.put weighted sample n = Some (ok, n') ->
  SpaceSaver.N n' = total_weight weighted [sample] (SpaceSaver.N n).
Proof.
  unfold SpaceSaver.put, total_weight, counted, is_sentinel. cbn [foldl].
  destruct (payload_type sample =? aku_PData.EMPTY).
  { unfold SpaceSaver.count.
    destruct (put_all _ _) as [[[] next']|]; simpl; by intros [= _ <-]. }
  destruct weighted; simpl.
  - destruct (Z.land (payload_type sample) aku_PData.FLOAT_BIT =? 0); simpl;
      [by intros [= _ <-]|].
    destruct (SpaceSaver.counters_ n !! paramid sample); [by intros [= _ <-]|].
    destruct (_ =? SpaceSaver.M n); simpl; [|by intros [= _ <-]].
    destruct (SpaceSaver.min_scan _ _ _) as [[[victim|] min]|]; simpl; try done.
    by intros [= _ <-].
  - destruct (SpaceSaver.counters_ n !! paramid sample); [by intros [= _ <-]|].
    destruct (_ =? SpaceSaver.M n); simpl; [|by intros [= _ <-]].
    destruct (SpaceSaver.min_scan _ _ _) as [[[victim|] min]|]; simpl; try done.
    by intros [= _ <-].
Qed.
End SpaceSaverEdge.

(** A node built with an infinite error has capacity 0 and cannot take a
    data sample. *)
Lemma space_saver_zero_capacity_witness :
  SpaceSaver.create infinity 0.5 Scenario.sink
  = Some (SpaceSaver.mk Scenario.sink ∅ 0 0 0.5)
  /\ SpaceSaver.put (H := Fixture.junk) false (float_sample 1 1 1)
       (SpaceSaver.mk Scenario.sink ∅ 0 0 0.5) = None.
Proof.
  split; [vm_compute; reflexivity|].
  apply (space_saver_zero_capacity (H := Fixture.junk) false (float_sample 1 1 1)
           (SpaceSaver.mk Scenario.sink ∅ 0 0 0.5)).
  - split; [simpl; lia|]. vm_compute. discriminate.
  - reflexivity.
  - reflexivity.
Defined.

Section SpaceSaverTotal.
Context `{Indeterminate}.

Lemma put_Recorder_accepts (weighted : bool) (sample : aku_Sample)
    (n n' : SpaceSaver.t Recorder) (ok : bool) :
  SpaceSaver.put weighted sample n = Some (ok, n') -> ok = true.
Proof.
  unfold SpaceSaver.put.
  destruct (payload_type sample =? aku_PData.EMPTY).
  { rewrite count_Recorder. by intros [= <- _]. }
  destruct (weighted && _); [by intros [= <- _]|].
  destruct (SpaceSaver.counters_ n !! paramid sample); [by intros [= <- _]|].
  destruct (_ =? SpaceSaver.M n); simpl; [|by intros [= <- _]].
  destruct (SpaceSaver.min_scan _ _ _) as [[[victim|] min]|]; simpl; try done.
  by intros [= <- _].
Qed.

Lemma frequent_items_total (l : list aku_Sample) (n n' : FrequentItems.t Recorder) :
  feed l n = Some n' ->
  SpaceSaver.N (FrequentItems.base n')
  = total_weight false l (SpaceSaver.N (FrequentItems.base n)).
Proof.
  revert n. induction l as [|s l IH]; intros n; [by intros [= <-]|].
  cbn [feed Node.put FrequentItems.node].
  destruct (SpaceSaver.put FrequentItems.weighted s (FrequentItems.base n))
    as [[ok b]|] eqn:Hput; simpl; [|done].
  pose proof (put_Recorder_accepts _ _ _ _ _ Hput) as ->.
  apply put_total_weight in Hput. intros Hfeed. apply IH in Hfeed.
  rewrite Hfeed. simpl. rewrite Hput. done.
Qed.

Lemma heavy_hitters_total (l : list aku_Sample) (n n' : HeavyHitters.t Recorder) :
  feed l n = Some n' ->
  SpaceSaver.N (HeavyHitters.base n')
  = total_weight true l (SpaceSaver.N (HeavyHitters.base n)).
Proof.
  revert n. induction l as [|s l IH]; intros n; [by intros [= <-]|].
  cbn [feed Node.put HeavyHitters.node].
  destruct (SpaceSaver.put HeavyHitters.weighted s (HeavyHitters.base n))
    as [[ok b]|] eqn:Hput; simpl; [|done].
  pose proof (put_Recorder_accepts _ _ _ _ _ Hput) as ->.
  apply put_total_weight in Hput. intros Hfeed. apply IH in Hfeed.
  rewrite Hfeed. simpl. rewrite Hput. done.
Qed.

(** X23.  The cumulative weight [N] of a Space-Saving node is the total
    over everything it has counted since it was constructed: over an
    accepting sink, after any sequence of samples, [N] is its old value plus
    1.0 per data sample (frequent items), or plus the value of every data
    sample with [FLOAT_BIT] (heavy hitters), added in order of arrival.
    Empty sentinels flush the counters but leave [N] alone, so the support
    threshold [N * P] of a later bucket includes the weight of the earlier
    ones. *)
Theorem space_saver_total_weight (l : list aku_Sample) (n : SpaceSaver.t Recorder) :
  (forall n', feed l (FrequentItems.mk n) = Some n' ->
     SpaceSaver.N (FrequentItems.base n') = total_weight false l (SpaceSaver.N n))
  /\ (forall n', feed l (HeavyHitters.mk n) = Some n' ->
        SpaceSaver.N (HeavyHitters.base n') = total_weight true l (SpaceSaver.N n)).
Proof.
  split; intros n' Hfeed.
  - by apply frequent_items_total in Hfeed.
  - by apply heavy_hitters_total in Hfeed.
Qed.

Lemma candidates_paramid (n : SpaceSaver.t Recorder) :
  map paramid (SpaceSaver.candidates n)
  = (filter (fun kv => SpaceSaver.supported (SpaceSaver.N n * SpaceSaver.P n) kv.2 = true)
            (map_to_list (SpaceSaver.counters_ n))).*1.
Proof.
  unfold SpaceSaver.candidates. rewrite map_map. done.
Qed.

(** X24.  A flush of a Space-Saving node reports every series at most once
    and never more series than its capacity: the samples [count] hands to an
    accepting sink have pairwise different ids, and there are at most [M]
    of them. *)
Theorem space_saver_flush_bounded (n : SpaceSaver.t Recorder) :
  bounded n ->
  exists out,
    SpaceSaver.count n = Some (true, flushed out n)
    /\ Z.of_nat (length out) <= SpaceSaver.M n
    /\ NoDup (map paramid out).
Proof.
  intros [_ Hsize].
  exists (std_sort SpaceSaver.by_count_desc (SpaceSaver.candidates n)).
  split; [apply count_Recorder|].
  pose proof (stable_sort_Permutation SpaceSaver.by_count_desc (SpaceSaver.candidates n))
    as Hperm.
  fold (std_sort SpaceSaver.by_count_desc (SpaceSaver.candidates n)) in Hperm.
  split.
  - rewrite (Permutation_length Hperm).
    rewrite <- (length_map paramid), candidates_paramid, length_fmap.
    etrans; [|exact Hsize]. apply Nat2Z.inj_le.
    rewrite <- length_map_to_list. apply length_filter.
  - rewrite (Permutation_map paramid Hperm), candidates_paramid.
    eapply sublist_NoDup; [apply (NoDup_fst_map_to_list (SpaceSaver.counters_ n))|].
    apply fmap_sublist, sublist_filter.
Qed.
End SpaceSaverTotal.

(** The node after its first sample: one series, capacity two. *)
Lemma space_saver_flush_bounded_witness :
  bounded Scenario.after_one_put
  /\ exists out,
      SpaceSaver.count (H := Fixture.junk) Scenario.after_one_put
      = Some (true, flushed out Scenario.after_one_put)
      /\ Z.of_nat (length out) <= 2.
Proof.
  assert (bounded Scenario.after_one_put) as Hb.
  { split; [vm_compute; discriminate|]. vm_compute. discriminate. }
  split; [exact Hb|].
  destruct (space_saver_flush_bounded (H := Fixture.junk) Scenario.after_one_put Hb)
    as (out & Hcount & Hlen & _).
  exists out. split; [exact Hcount|exact Hlen].
Defined.

Section TotalWeightExample.
#[local] Existing Instance Fixture.junk.

(** Two samples and a sentinel leave [N] at 2. *)
Lemma space_saver_total_weight_witness :
  feed [float_sample 1 1 0; float_sample 1 2 0; sentinel 10]
       (FrequentItems.mk Scenario.fresh_frequent_items)
  = Some (FrequentItems.mk (SpaceSaver.mk
            (mk_Recorder [OnPut (SpaceSaver.report 1 (SpaceSaver.Item.mk 2 0))])
            ∅ 2 2 0.5))
  /\ 2%float = total_weight false [float_sample 1 1 0; float_sample 1 2 0; sentinel 10] 0.
Proof.
  assert (feed [float_sample 1 1 0; float_sample 1 2 0; sentinel 10]
               (FrequentItems.mk Scenario.fresh_frequent_items)
          = Some (FrequentItems.mk (SpaceSaver.mk
                    (mk_Recorder [OnPut (SpaceSaver.report 1
                                           (SpaceSaver.Item.mk 2 0))]) ∅ 2 2 0.5))) as Hfeed
    by (vm_compute; reflexivity).
  split; [exact Hfeed|].
  exact (proj1 (space_saver_total_weight _ Scenario.fresh_frequent_items)
           _ Hfeed).
Defined.
End TotalWeightExample.

(** *** Exact counts below the capacity *)

Lemma exact_item_snoc (weighted : bool) (id : aku_ParamId) (l : list aku_Sample)
    (s : aku_Sample) :
  exact_item weighted id (l ++ [s]) = exact_step weighted id (exact_item weighted id l) s.
Proof. unfold exact_item. by rewrite foldl_app. Qed.

Lemma counted_ids_snoc (weighted : bool) (l : list aku_Sample) (s : aku_Sample) :
  counted_ids weighted (l ++ [s]) =
    if counted weighted s then counted_ids weighted l ∪ {[ paramid s ]}
    else counted_ids weighted l.
Proof.
  unfold counted_ids. rewrite List.filter_app. simpl.
  destruct (counted weighted s).
  - rewrite fmap_app, list_to_set_app_L. simpl. by rewrite union_empty_r_L.
  - by rewrite app_nil_r.
Qed.

Lemma exact_item_is_Some (weighted : bool) (id : aku_ParamId) (l : list aku_Sample) :
  is_Some (exact_item weighted id l) <-> id ∈ counted_ids weighted l.
Proof.
  induction l as [|s l IH] using rev_ind.
  - unfold exact_item, counted_ids. simpl. split; [by intros [? [=]]|].
    intros Hin. by apply elem_of_empty in Hin.
  - rewrite exact_item_snoc, counted_ids_snoc. unfold exact_step.
    destruct (counted weighted s); simpl; [|done].
    rewrite elem_of_union, elem_of_singleton, <- IH.
    destruct (Z.eqb_spec (paramid s) id) as [->|Hne].
    + split; [by right|]. intros _. by eexists.
    + split; [by left|]. intros [?|?]; [done|]. congruence.
Qed.

Section Exact.
Context {T : Type} `{Indeterminate} `{Node T}.

Lemma holds_exact_size (weighted : bool) (seen : list aku_Sample) (n : SpaceSaver.t T) :
  holds_exact weighted seen n ->
  size (SpaceSaver.counters_ n) = size (counted_ids weighted seen).
Proof.
  intros Hexact. rewrite <- size_dom. f_equal. apply set_eq. intros id.
  by rewrite elem_of_dom, Hexact, exact_item_is_Some.
Qed.

Lemma put_exact (weighted : bool) (seen : list aku_Sample) (s : aku_Sample)
    (n : SpaceSaver.t T) :
  is_sentinel s = false ->
  holds_exact weighted seen n ->
  Z.of_nat (size (counted_ids weighted (seen ++ [s]))) <= SpaceSaver.M n ->
  exists counters,
    SpaceSaver.put weighted s n =
      Some (true, SpaceSaver.mk (SpaceSaver.next_ n) counters
                    (total_weight weighted [s] (SpaceSaver.N n))
                    (SpaceSaver.M n) (SpaceSaver.P n))
    /\ holds_exact weighted (seen ++ [s])
         (SpaceSaver.mk (SpaceSaver.next_ n) counters
            (total_weight weighted [s] (SpaceSaver.N n)) (SpaceSaver.M n) (SpaceSaver.P n)).
Proof.
  intros Hdata Hexact Hroom. pose proof (holds_exact_size _ _ _ Hexact) as Hsize.
  rewrite counted_ids_snoc in Hroom.
  unfold SpaceSaver.put, total_weight, holds_exact. cbn [foldl].
  unfold is_sentinel in Hdata. rewrite Hdata.
  assert (counted weighted s
          = negb (weighted && (Z.land (payload_type s) aku_PData.FLOAT_BIT =? 0))) as Hc.
  { unfold counted, is_sentinel. rewrite Hdata. simpl.
    by destruct weighted, (Z.land (payload_type s) aku_PData.FLOAT_BIT =? 0). }
  destruct (weighted && (Z.land (payload_type s) aku_PData.FLOAT_BIT =? 0)) eqn:Hskip;
    simpl in Hc; rewrite Hc in *.
  { exists (SpaceSaver.counters_ n). destruct n. split; [done|]. intros id. simpl.
    rewrite exact_item_snoc. unfold exact_step. rewrite Hc. simpl. apply Hexact. }
  destruct (SpaceSaver.counters_ n !! paramid s) as [item|] eqn:Hid.
  - eexists. split; [done|]. intros id. simpl.
    rewrite exact_item_snoc. unfold exact_step. rewrite Hc. simpl.
    destruct (Z.eqb_spec (paramid s) id) as [<-|Hne].
    + rewrite lookup_insert_eq, <- Hexact, Hid. done.
    + rewrite lookup_insert_ne by done. apply Hexact.
  - assert (paramid s ∉ counted_ids weighted seen) as Hnew.
    { rewrite <- exact_item_is_Some, <- Hexact, Hid. by intros [? [=]]. }
    rewrite size_union in Hroom by (apply disjoint_singleton_r; done).
    rewrite size_singleton in Hroom.
    destruct (Z.eqb_spec (Z.of_nat (size (SpaceSaver.counters_ n))) (SpaceSaver.M n));
      [lia|].
    eexists. split; [done|]. intros id. simpl.
    rewrite exact_item_snoc. unfold exact_step. rewrite Hc. simpl.
    destruct (Z.eqb_spec (paramid s) id) as [<-|Hne].
    + rewrite lookup_insert_eq, <- Hexact, Hid. done.
    + rewrite lookup_insert_ne by done. apply Hexact.
Qed.

Lemma frequent_items_feed (l : list aku_Sample) (n : SpaceSaver.t T) :
  feed l (FrequentItems.mk n) = FrequentItems.mk <$> space_saver_feed false l n.
Proof.
  revert n. induction l as [|s l IH]; intros n; [done|].
  cbn [feed space_saver_feed]. cbn [Node.put FrequentItems.node FrequentItems.base].
  unfold FrequentItems.weighted.
  destruct (SpaceSaver.put false s n) as [[[] n']|]; simpl; [apply IH|done|done].
Qed.

Lemma heavy_hitters_feed (l : list aku_Sample) (n : SpaceSaver.t T) :
  feed l (HeavyHitters.mk n) = HeavyHitters.mk <$> space_saver_feed true l n.
Proof.
  revert n. induction l as [|s l IH]; intros n; [done|].
  cbn [feed space_saver_feed]. cbn [Node.put HeavyHitters.node HeavyHitters.base].
  unfold HeavyHitters.weighted.
  destruct (SpaceSaver.put true s n) as [[[] n']|]; simpl; [apply IH|done|done].
Qed.

Lemma total_weight_cons (weighted : bool) (s : aku_Sample) (l : list aku_Sample) (a : float) :
  total_weight weighted (s :: l) a = total_weight weighted l (total_weight weighted [s] a).
Proof. done. Qed.

Lemma feed_exact (weighted : bool) (seen l : list aku_Sample) (n : SpaceSaver.t T) :
  Forall (fun s => is_sentinel s = false) l ->
  holds_exact weighted seen n ->
  Z.of_nat (size (counted_ids weighted (seen ++ l))) <= SpaceSaver.M n ->
  exists counters,
    space_saver_feed weighted l n =
      Some (SpaceSaver.mk (SpaceSaver.next_ n) counters
              (total_weight weighted l (SpaceSaver.N n)) (SpaceSaver.M n) (SpaceSaver.P n))
    /\ forall id, counters !! id = exact_item weighted id (seen ++ l).
Proof.
  intros Hl. revert seen n. induction Hl as [|s l Hs Hl IH]; intros seen n Hexact Hroom.
  - exists (SpaceSaver.counters_ n). rewrite app_nil_r. destruct n. done.
  - destruct (put_exact weighted seen s n Hs Hexact) as (counters & Hput & Hexact').
    { etrans; [|exact Hroom]. apply Nat2Z.inj_le, subseteq_size.
      unfold counted_ids.
      replace (seen ++ s :: l) with ((seen ++ [s]) ++ l) by (by rewrite <- app_assoc).
      rewrite (List.filter_app _ (seen ++ [s]) l), fmap_app, list_to_set_app_L.
      apply union_subseteq_l. }
    cbn [space_saver_feed]. rewrite Hput. cbn [mbind option_bind].
    destruct (IH (seen ++ [s]) _ Hexact') as (counters' & Hfeed & Hall).
    { cbn [SpaceSaver.M]. by rewrite <- app_assoc. }
    exists counters'. rewrite Hfeed. cbn [SpaceSaver.next_ SpaceSaver.N SpaceSaver.M SpaceSaver.P].
    split; [by rewrite total_weight_cons|].
    intros id. rewrite Hall, <- app_assoc. done.
Qed.

(** X27.  While the series a Space-Saving node has to count are no more
    than its capacity, nothing is evicted and its counters are exact: fed
    data samples whose counted ids number at most [M], a node that starts
    with an empty map accepts them all, never calls its successor, and then
    holds for every counted series the sum of its weights (1.0 per sample
    for frequent items, the values for heavy hitters) with [error] 0, and
    for no other id an entry. *)
Theorem space_saver_exact_below_capacity (weighted : bool) (l : list aku_Sample)
    (n : SpaceSaver.t T) :
  SpaceSaver.counters_ n = ∅ ->
  Forall (fun s => is_sentinel s = false) l ->
  Z.of_nat (size (counted_ids weighted l)) <= SpaceSaver.M n ->
  exists counters,
    let n' := SpaceSaver.mk (SpaceSaver.next_ n) counters
                (total_weight weighted l (SpaceSaver.N n)) (SpaceSaver.M n) (SpaceSaver.P n) in
    (if weighted
     then feed l (HeavyHitters.mk n) = Some (HeavyHitters.mk n')
     else feed l (FrequentItems.mk n) = Some (FrequentItems.mk n'))
    /\ forall id, counters !! id = exact_item weighted id l.
Proof.
  intros Hempty Hl Hroom.
  destruct (feed_exact weighted [] l n Hl) as (counters & Hfeed & Hall).
  { intros id. by rewrite Hempty, lookup_empty. }
  { done. }
  exists counters. split; [|exact Hall].
  destruct weighted.
  - by rewrite heavy_hitters_feed, Hfeed.
  - by rewrite frequent_items_feed, Hfeed.
Qed.
End Exact.

Section ExactExample.
#[local] Existing Instance Fixture.junk.

(** Ids 1, 2, 1 in a frequent-items node of capacity two: the counts are 2
    and 1. *)
Lemma space_saver_exact_below_capacity_witness :
  Z.of_nat (size (counted_ids false
                    [float_sample 1 1 0; float_sample 2 2 0; float_sample 1 3 0])) <= 2
  /\ exists counters,
      feed [float_sample 1 1 0; float_sample 2 2 0; float_sample 1 3 0]
           (FrequentItems.mk Scenario.fresh_frequent_items)
      = Some (FrequentItems.mk (SpaceSaver.mk Scenario.sink counters 3 2 0.5))
      /\ counters !! 1 = Some (SpaceSaver.Item.mk 2 0)
      /\ counters !! 2 = Some (SpaceSaver.Item.mk 1 0)
      /\ counters !! 3 = None.
Proof.
  assert (Z.of_nat (size (counted_ids false
                            [float_sample 1 1 0; float_sample 2 2 0; float_sample 1 3 0])) <= 2)
    as Hroom by (vm_compute; discriminate).
  split; [exact Hroom|].
  destruct (space_saver_exact_below_capacity false
              [float_sample 1 1 0; float_sample 2 2 0; float_sample 1 3 0]
              Scenario.fresh_frequent_items eq_refl) as (counters & Hfeed & Hall);
    [repeat constructor|exact Hroom|].
  exists counters. split; [exact Hfeed|]. rewrite !Hall. repeat split.
Defined.
End ExactExample.

(** ** More on the anomaly detector *)

Section AnomalyFeed.
Context {D : Type} `{AnomalyDetectorIface D}.

End AnomalyFeed.

(** ** What the builder returns *)

Section BuilderReturns.
Context {T : Type} `{Conversions} `{Indeterminate} `{Node T} `{FreeStore}.
Import NodeBuilder.

(** X26.  When [make_sampler] returns a node, the description has a name,
    the name is one of the six the builder knows, and [get_type] of the
    node is the kind that name stands for: [RandomSampler] for reservoir,
    [MovingAverage], [MovingMedian], [SpaceSaver] for frequent-items and
    for heavy-hitters, [AnomalyDetector] for anomaly-detector. *)
Theorem make_sampler_returns_kind (pt : ptree) (random : Rand) (next : T)
    (node : Sampler T) :
  make_sampler pt random next = Returns node ->
  exists name,
    Malformed.named name pt
    /\ name ∈ Malformed.known_names
    /\ described_type name = Some (Sampler_get_type node).
Proof.
  unfold make_sampler, make_sampler_body, parse_anomaly_detector_type,
    Ptree.get, Ptree.get_string, lexical_cast, unknown_algorithm, of_option,
    Malformed.named, Malformed.known_names, described_type.
  destruct (Ptree.find "name" pt) as [name|]; simpl; [|done].
  intros Hreturn. exists name. split; [done|]. revert Hreturn.
  destruct (String.eqb_spec name "reservoir") as [->|_].
  { unfold mbind, Outcome_bind.
    repeat (case_match; simpl in *; simplify_eq; try done).
    all: intros; simplify_eq; split; [set_solver|done]. }
  destruct (String.eqb_spec name "moving-average") as [->|_].
  { intros [= <-]. split; [set_solver|done]. }
  destruct (String.eqb_spec name "moving-median") as [->|_].
  { intros [= <-]. split; [set_solver|done]. }
  destruct (String.eqb_spec name "frequent-items") as [->|_].
  { unfold mbind, Outcome_bind.
    repeat (case_match; simpl in *; simplify_eq; try done).
    all: intros; simplify_eq; split; [set_solver|done]. }
  destruct (String.eqb_spec name "heavy-hitters") as [->|_].
  { unfold mbind, Outcome_bind.
    repeat (case_match; simpl in *; simplify_eq; try done).
    all: intros; simplify_eq; split; [set_solver|done]. }
  destruct (String.eqb_spec name "anomaly-detector") as [->|_]; [|done].
  unfold mbind, Outcome_bind.
  repeat (case_match; simpl in *; simplify_eq; try done).
  all: intros; simplify_eq; split; [set_solver|done].
Qed.
End BuilderReturns.

Section BuilderReturnsExample.
#[local] Existing Instance Fixture.free_store.

(** The reservoir description of size 2 gives a [RandomSampler]. *)
Lemma make_sampler_returns_kind_witness :
  NodeBuilder.make_sampler (H := Fixture.conversions)
    [("name", "reservoir"); ("size", "2")]%string Scenario.random Scenario.sink
  = Returns (NodeBuilder.Reservoir (RandomSamplingNode.create 2 Scenario.random Scenario.sink))
  /\ exists name,
      Malformed.named name [("name", "reservoir"); ("size", "2")]%string
      /\ name ∈ Malformed.known_names
      /\ described_type name = Some Node.RandomSampler.
Proof.
  assert (NodeBuilder.make_sampler (H := Fixture.conversions)
            [("name", "reservoir"); ("size", "2")]%string Scenario.random Scenario.sink
          = Returns (NodeBuilder.Reservoir
                       (RandomSamplingNode.create 2 Scenario.random Scenario.sink))) as Hret
    by (vm_compute; reflexivity).
  split; [exact Hret|].
  exact (make_sampler_returns_kind (H := Fixture.conversions) _ _ _ _ Hret).
Defined.
End BuilderReturnsExample.

Section BuilderNever.
Context {T : Type} `{Conversions} `{Indeterminate} `{Node T} `{FreeStore}.
Import NodeBuilder.

(** X28.  For a description named anomaly-detector the builder's last
    [throw], "unknown algorithm", is out of reach: every forecasting method
    that [parse_anomaly_detector_type] returns is either a sliding-window
    method, for which a node is built, or a Holt-Winters method, for which
    the string literal is thrown. *)
Theorem make_sampler_anomaly_never_unknown (pt : ptree) (random : Rand) (next : T) :
  Malformed.named "anomaly-detector" pt ->
  make_sampler pt random next
  <> Throws (NodeException Node.RandomSampler
               "invalid sampler description, unknown algorithm").
Proof.
  unfold Malformed.named. intros Hname.
  unfold make_sampler, make_sampler_body, parse_anomaly_detector_type,
    Ptree.get, Ptree.get_string, lexical_cast, unknown_algorithm.
  rewrite Hname. simpl. unfold mbind, Outcome_bind.
  repeat (case_match; simpl in *; simplify_eq; try done).
Qed.
End BuilderNever.

Section BuilderNeverExample.
#[local] Existing Instance Fixture.free_store.

(** The Holt-Winters description raises the literal, not the builder's
    error. *)
Lemma make_sampler_anomaly_never_unknown_witness :
  Malformed.named "anomaly-detector" Scenario.anomaly_double_hw
  /\ NodeBuilder.make_sampler (H := Fixture.conversions)
       Scenario.anomaly_double_hw Scenario.random Scenario.sink
     <> Throws (NodeException Node.RandomSampler
                  "invalid sampler description, unknown algorithm").
Proof.
  assert (Malformed.named "anomaly-detector" Scenario.anomaly_double_hw) as Hname
    by reflexivity.
  split; [exact Hname|].
  exact (make_sampler_anomaly_never_unknown (H := Fixture.conversions)
           Scenario.anomaly_double_hw Scenario.random Scenario.sink Hname).
Defined.
End BuilderNeverExample.
